(** * yasmin: the demo state machine and the ROS 2 action state

    A shallow embedding of [yasmin_demos/yasmin_demo.py] and
    [yasmin_ros/action_state.py].  Python objects are records, attribute
    assignment is state passing, exceptions are a result constructor, and
    calls on collaborators that live outside the two files (logger, sleep,
    action client, synchronisation objects) are recorded as effects. *)

From stdpp Require Import gmap strings list pretty.
From Stdlib Require Import ZArith QArith Lia.

Open Scope string_scope.
Open Scope Z_scope.

(** ** Python results: a return value, a raised exception, or a thread that
    stays blocked on a wait that nothing ends. *)

Inductive Exn :=
| AttributeError (attr : string)
| KeyError (key : string)
| ValueError (msg : string)
| TypeError (msg : string)
| ConfigurationError (msg : string)
| ContractViolation (msg : string)
| UserException (msg : string).

Inductive Res (A : Type) :=
| Ret (a : A)
| Raise (e : Exn)
| Block.
Arguments Ret {A} a.
Arguments Raise {A} e.
Arguments Block {A}.

(** State-and-exception monad: the state reached is kept when an exception
    is raised, as the mutations a Python method made before raising are. *)
Definition M (S A : Type) : Type := S -> Res A * S.

Definition ret {S A} (a : A) : M S A := fun s => (Ret a, s).
Definition raise {S A} (e : Exn) : M S A := fun s => (Raise e, s).
Definition block {S A} : M S A := fun s => (Block, s).
Definition get {S} : M S S := fun s => (Ret s, s).
Definition modify {S} (f : S -> S) : M S unit := fun s => (Ret tt, f s).

Definition bind {S A B} (m : M S A) (k : A -> M S B) : M S B :=
  fun s =>
    match m s with
    | (Ret a, s') => k a s'
    | (Raise e, s') => (Raise e, s')
    | (Block, s') => (Block, s')
    end.

(** [try ... finally]: the handler runs on every exit, then the result of
    the body is passed on. *)
Definition finally {S A} (m : M S A) (h : M S unit) : M S A :=
  fun s =>
    match m s with
    | (r, s') =>
        match h s' with
        | (Ret _, s'') => (r, s'')
        | (Raise e, s'') => (Raise e, s'')
        | (Block, s'') => (Block, s'')
        end
    end.

Notation "'let*' x ':=' m 'in' k" := (bind m (fun x => k))
  (at level 10, x pattern, m at level 100, k at level 200,
   format "'[v' 'let*'  x  ':='  m  'in' '/' k ']'").
Notation "m '>>' k" := (bind m (fun _ => k))
  (at level 100, k at level 200, right associativity).

(** The blackboard: string keys; the values the two files store are strings. *)
Abbreviation Blackboard := (gmap string string).

(** ** yasmin.State, the base class *)

Module State.

(** Modelled from the spec: the base class [State] of the [yasmin] package
      is not among the sources.  Spec 3 and 4.2: a state holds the fixed
      collection of outcome tokens given at construction and a canceled flag
      that [cancel] raises. *)
Record t := mk { _outcomes : list string; _canceled : bool }.

Definition __init__ (outcomes : list string) : t :=
    {| _outcomes := outcomes; _canceled := false |}.

Definition cancel_state (self : t) : t :=
    {| _outcomes := _outcomes self; _canceled := true |}.

End State.

(** ** yasmin_demo.py *)

(** What the demo does to the outside: log lines, sleeps, and the machine's
    "active state changed" notifications. *)
Inductive DemoEffect :=
| YASMIN_LOG_INFO (msg : string)
| Sleep (seconds : Z)
| ActiveState (name : string).

#[export] Instance DemoEffect_eq_dec : EqDecision DemoEffect.
Proof. solve_decision. Defined.

Record DemoCtx := mkDemoCtx { blackboard : gmap string string; effects : list DemoEffect }.

Definition emit (e : DemoEffect) (c : DemoCtx) : DemoCtx :=
  {| blackboard := blackboard c; effects := effects c ++ [e] |}.

Definition bb_set (k v : string) (c : DemoCtx) : DemoCtx :=
  {| blackboard := <[k := v]> (blackboard c); effects := effects c |}.

(** Modelled from the spec: the class [Blackboard] of the [yasmin] package is
    not among the sources.  Spec 4.1: [get(key)] gives the value or a
    missing-key error; for [blackboard[key]] that error is Python's KeyError. *)
Definition bb_get (k : string) (c : DemoCtx) : Res string :=
  match blackboard c !! k with
  | Some v => Ret v
  | None => Raise (KeyError k)
  end.

Module FooState.

Record t := mk { base : State.t; counter : Z }.

Definition __init__ : t :=
    {| base := State.__init__ ["outcome1"; "outcome2"]; counter := 0 |}.

Definition execute (self : t) (c : DemoCtx) : Res string * t * DemoCtx :=
    let c := emit (YASMIN_LOG_INFO "Executing state FOO") c in
    let c := emit (Sleep 3) c in
    if counter self <? 3 then
      let self := {| base := base self; counter := counter self + 1 |} in
      let c := bb_set "foo_str" ("Counter: " +:+ pretty (counter self)) c in
      (Ret "outcome1", self, c)
    else
      (Ret "outcome2", self, c).

End FooState.

Module BarState.

Record t := mk { base : State.t }.

Definition __init__ : t := {| base := State.__init__ ["outcome3"] |}.

Definition execute (self : t) (c : DemoCtx) : Res string * t * DemoCtx :=
    let c := emit (YASMIN_LOG_INFO "Executing state BAR") c in
    let c := emit (Sleep 3) c in
    match bb_get "foo_str" c with
    | Ret v => (Ret "outcome3", self, emit (YASMIN_LOG_INFO v) c)
    | Raise e => (Raise e, self, c)
    | Block => (Block, self, c)
    end.

End BarState.

(** ** yasmin.StateMachine *)

(** The capability every state offers the machine that drives it. *)
Class Executable (T : Type) := {
  get_outcomes : T -> list string;
  run_execute : T -> DemoCtx -> Res string * T * DemoCtx;
}.

#[export] Instance FooState_Executable : Executable FooState.t := {
  get_outcomes self := State._outcomes (FooState.base self);
  run_execute := FooState.execute;
}.

#[export] Instance BarState_Executable : Executable BarState.t := {
  get_outcomes self := State._outcomes (BarState.base self);
  run_execute := BarState.execute;
}.

(** A state object of any class, as the machine's registry holds it. *)
Record AnyState := pack {
  carrier : Type;
  carrier_Executable : Executable carrier;
  object : carrier;
}.
Arguments pack {carrier carrier_Executable} object.

Module StateMachine.

(** Modelled from the spec: the class [StateMachine] of the [yasmin] package
    is not among the sources.  Spec 3 and 4.3: a registry of named states with
    their per-outcome routing, the first registered state as entry point, the
    machine's own outcome set, and the pointer to the active state. *)
Record t := mk {
  base : State.t;
  _states : gmap string (AnyState * gmap string string);
  _start_state : option string;
  _current_state : option string;
}.

Definition __init__ (outcomes : list string) : t :=
  {| base := State.__init__ outcomes; _states := ∅;
     _start_state := None; _current_state := None |}.

(** Modelled from the spec: [addState] (4.3) refuses a name that is already
    registered and a state one of whose outcomes has no routing entry. *)
Definition add_state (name : string) (state : AnyState)
    (transitions : gmap string string) (self : t) : Res t :=
  if bool_decide (is_Some (_states self !! name)) then
    Raise (ConfigurationError ("State '" +:+ name +:+ "' already registered"))
  else if negb (forallb (fun o => bool_decide (is_Some (transitions !! o)))
                  (@get_outcomes _ (carrier_Executable state) (object state))) then
    Raise (ConfigurationError ("State '" +:+ name +:+ "' has an outcome without a transition"))
  else
    Ret {| base := base self;
           _states := <[name := (state, transitions)]> (_states self);
           _start_state := match _start_state self with
                           | Some n => Some n
                           | None => Some name
                           end;
           _current_state := _current_state self |}.

(** Modelled from the spec: every routing target is a registered state or one
    of the machine's outcomes, checked before any state executes (4.3). *)
Definition validate (self : t) : bool :=
  forallb
    (fun entry : string * (AnyState * gmap string string) =>
       forallb
         (fun tr : string * string =>
            bool_decide (is_Some (_states self !! tr.2))
            || bool_decide (tr.2 ∈ State._outcomes (base self)))
         (map_to_list entry.2.2))
    (map_to_list (_states self)).

Definition set_current (cur : option string) (self : t) : t :=
  {| base := base self; _states := _states self;
     _start_state := _start_state self; _current_state := cur |}.

Definition set_object (name : string) (state : AnyState)
    (transitions : gmap string string) (self : t) : t :=
  {| base := base self;
     _states := <[name := (state, transitions)]> (_states self);
     _start_state := _start_state self; _current_state := _current_state self |}.

(** Modelled from the spec: the execution loop of 4.3.  The loop has no
    bound of its own; [fuel] counts the state executions allowed, and [None]
    means that they were used up before a terminal outcome was reached. *)
Fixpoint loop (fuel : nat) (name : string) (self : t) (c : DemoCtx)
    : option (Res string * t * DemoCtx) :=
  match fuel with
  | O => None
  | S fuel =>
      match _states self !! name with
      | None => Some (Raise (ConfigurationError ("Unknown state '" +:+ name +:+ "'")), self, c)
      | Some (pack st, transitions) =>
          let self := set_current (Some name) self in
          let c := emit (ActiveState name) c in
          match run_execute st c with
          | (Ret outcome, st, c) =>
              let self := set_object name (pack st) transitions self in
              if negb (bool_decide (outcome ∈ get_outcomes st)) then
                Some (Raise (ContractViolation outcome), self, c)
              else
                match transitions !! outcome with
                | None => Some (Raise (ConfigurationError outcome), self, c)
                | Some target =>
                    if bool_decide (target ∈ State._outcomes (base self)) then
                      Some (Ret target, set_current None self, c)
                    else loop fuel target self c
                end
          | (Raise e, st, c) =>
              Some (Raise e, set_object name (pack st) transitions self, c)
          | (Block, st, c) =>
              Some (Block, set_object name (pack st) transitions self, c)
          end
      end
  end.

Definition execute (fuel : nat) (self : t) (c : DemoCtx)
    : option (Res string * t * DemoCtx) :=
  if negb (validate self) then
    Some (Raise (ConfigurationError "dangling transition"), self, c)
  else
    match _start_state self with
    | None => Some (Raise (ConfigurationError "no state registered"), self, c)
    | Some name => loop fuel name self c
    end.

End StateMachine.

(** [main]: the machine of the demo, built as lines 73-90 build it. *)
Definition build_sm : Res StateMachine.t :=
  let sm := StateMachine.__init__ ["outcome4"] in
  match StateMachine.add_state "FOO" (pack FooState.__init__)
          {[ "outcome1" := "BAR"; "outcome2" := "outcome4" ]} sm with
  | Ret sm =>
      StateMachine.add_state "BAR" (pack BarState.__init__)
        {[ "outcome3" := "FOO" ]} sm
  | r => r
  end.

(** [main] up to the end of [sm()]: the start-up log line, the run of the
    machine on a fresh blackboard, and the log line with the outcome.  The
    ROS set-up and the viewer publisher are collaborators outside the file. *)
Definition main (fuel : nat) : option (Res string * DemoCtx) :=
  let c := emit (YASMIN_LOG_INFO "yasmin_demo") (mkDemoCtx ∅ []) in
  match build_sm with
  | Ret sm =>
      match StateMachine.execute fuel sm c with
      | Some (Ret outcome, _, c) => Some (Ret outcome, emit (YASMIN_LOG_INFO outcome) c)
      | Some (r, _, c) => Some (r, c)
      | None => None
      end
  | Raise e => Some (Raise e, c)
  | Block => Some (Block, c)
  end.

(** The names of the states the machine activated, in order. *)
Definition activations (es : list DemoEffect) : list string :=
  omap (fun e => match e with ActiveState n => Some n | _ => None end) es.

(** How many times the body of a state's [execute] started: its first
    statement is the log line "Executing state <name>". *)
Definition executions (name : string) (es : list DemoEffect) : nat :=
  length (filter (fun e => e = YASMIN_LOG_INFO ("Executing state " +:+ name)) es).

(** ** yasmin_ros: the collaborators of [ActionState] *)

(** Modelled from the spec: the outcome tokens of [yasmin_ros.basic_outcomes],
    a module that is not among the sources; the spec names the four outcomes
    (4.4) and they are string tokens (3). *)
Definition SUCCEED : string := "succeeded".
Definition ABORT : string := "aborted".
Definition CANCEL : string := "canceled".
Definition TIMEOUT : string := "timeout".

(** The status codes of [action_msgs.msg.GoalStatus]. *)
Module GoalStatus.
Definition STATUS_UNKNOWN : Z := 0.
Definition STATUS_ACCEPTED : Z := 1.
Definition STATUS_EXECUTING : Z := 2.
Definition STATUS_CANCELING : Z := 3.
Definition STATUS_SUCCEEDED : Z := 4.
Definition STATUS_CANCELED : Z := 5.
Definition STATUS_ABORTED : Z := 6.
End GoalStatus.

(** Modelled from the spec: the process-wide default node accessor
    [YasminNode.get_instance()] (spec 9); a node is known by its name. *)
Definition YasminNode_get_instance : string := "yasmin_node".

(** The synchronisation objects of [threading], kept in a store so that two
    references to one object are two equal locations. *)
Inductive PyObj :=
| EventObj (flag : bool)
| RLockObj (depth : nat).

Definition alloc (o : PyObj) (h : gmap nat PyObj) : nat * gmap nat PyObj :=
  let l := fresh (dom h) in (l, <[l := o]> h).

(** An instance attribute that the class body only annotates: it exists from
    the first assignment on. *)
Inductive attr (A : Type) :=
| Unset
| Bound (a : A).
Arguments Unset {A}.
Arguments Bound {A} a.

(** A completed [rclpy] future: [result()] returns its value or raises. *)
Inductive Future (A : Type) :=
| Resolved (a : A)
| Failed (e : Exn).
Arguments Resolved {A} a.
Arguments Failed {A} e.

Record ActionClient := mkActionClient {
  client_node : string;
  client_action_type : string;
  client_action_name : string;
}.

(** The double quote character, for the text of messages that contain it. *)
Definition dquote : string := String (Ascii.ascii_of_nat 34) EmptyString.

(** The [outcomes] argument: [None], a list, or (as annotated) a set. *)
Inductive OutcomesArg :=
| OutcomesNone
| OutcomesList (l : list string)
| OutcomesSet (l : list string).

(** Python truthiness of the [timeout] argument. *)
Definition truthy_timeout (timeout : option Q) : bool :=
  match timeout with
  | None => false
  | Some q => negb (Qeq_bool q 0)
  end.

Module ActionState.

(** The class body (lines 53-68): two attributes get a value there, once,
    when the class statement runs; the others are annotations. *)
Record class_attrs := mkClass {
  _action_done_event : nat;
  _goal_handle_lock : nat;
}.

Definition class_body (h : gmap nat PyObj) : class_attrs * gmap nat PyObj :=
  let '(ev, h) := alloc (EventObj false) h in
  let '(lk, h) := alloc (RLockObj 0) h in
  ({| _action_done_event := ev; _goal_handle_lock := lk |}, h).

Definition cls : class_attrs := Eval vm_compute in (class_body ∅).1.
Definition heap0 : gmap nat PyObj := (class_body ∅).2.

Section Bridge.
Context {Goal Result Feedback : Type}.

Record FeedbackMessage := mkFeedback { feedback : Feedback }.
Record GetResultResponse := mkResponse { status : Z; result : Result }.

Record t := mk {
  base : State.t;
  _action_name : string;
  _timeout : option Q;
  _node : string;
  _action_client : ActionClient;
  _create_goal_handler : M (gmap string string) Goal;
  _result_handler : option (Result -> M (gmap string string) string);
  _feedback_handler : option (Feedback -> M (gmap string string) unit);
  _action_result : attr Result;
  _action_status : attr Z;
  _goal_handle : attr (option nat);
}.

Definition __init__ (action_type action_name : string)
    (create_goal_handler : option (M (gmap string string) Goal))
    (outcomes : OutcomesArg)
    (result_handler : option (Result -> M (gmap string string) string))
    (feedback_handler : option (Feedback -> M (gmap string string) unit))
    (node : option string) (timeout : option Q) : Res t :=
  let _outcomes := [SUCCEED; ABORT; CANCEL] in
  let _outcomes := if truthy_timeout timeout then (_outcomes ++ [TIMEOUT])%list else _outcomes in
  let _outcomes :=
    match outcomes with
    | OutcomesNone | OutcomesList [] | OutcomesSet [] => Ret _outcomes
    | OutcomesList l => Ret (_outcomes ++ l)%list
    | OutcomesSet _ =>
        Raise (TypeError ("can only concatenate list (not " +:+ dquote +:+ "set"
                          +:+ dquote +:+ ") to list"))
    end in
  match _outcomes with
  | Ret _outcomes =>
      let node := match node with
                  | None => YasminNode_get_instance
                  | Some n => n
                  end in
      match create_goal_handler with
      | None => Raise (ValueError "create_goal_handler is needed")
      | Some create_goal_handler =>
          Ret {| base := State.__init__ _outcomes;
                 _action_name := action_name;
                 _timeout := timeout;
                 _node := node;
                 _action_client := mkActionClient node action_type action_name;
                 _create_goal_handler := create_goal_handler;
                 _result_handler := result_handler;
                 _feedback_handler := feedback_handler;
                 _action_result := Unset;
                 _action_status := Unset;
                 _goal_handle := Unset |}
      end
  | Raise e => Raise e
  | Block => Block
  end.

(** What an [ActionState] does to the outside, in order. *)
Inductive Effect :=
| LogInfo (msg : string)
| LogWarn (msg : string)
| Acquire (lock : nat)
| Release (lock : nat)
| EventClear (ev : nat)
| EventWait (ev : nat)
| EventSet (ev : nat)
| Store (attribute : string)
| WaitForServer (timeout : option Q)
| SendGoalAsync (goal : Goal)
| AddDoneCallback (callback : string)
| GetResultAsync (handle : nat)
| CancelGoal (handle : nat)
| Unhandled (e : Exn).

(** The instance, the blackboard given to [execute], the store of
    synchronisation objects and the effects so far. *)
Record Sys := mkSys {
  self : t;
  bb : gmap string string;
  heap : gmap nat PyObj;
  trace : list Effect;
}.

Definition emit (e : Effect) : M Sys unit :=
  modify (fun s => mkSys (self s) (bb s) (heap s) (trace s ++ [e])%list).

Definition set_self (f : t -> t) : M Sys unit :=
  modify (fun s => mkSys (f (self s)) (bb s) (heap s) (trace s)).

Definition set_heap (f : gmap nat PyObj -> gmap nat PyObj) : M Sys unit :=
  modify (fun s => mkSys (self s) (bb s) (f (heap s)) (trace s)).

(** A user function runs on the blackboard. *)
Definition on_blackboard {A} (m : M (gmap string string) A) : M Sys A :=
  fun s =>
    match m (bb s) with
    | (r, b) => (r, mkSys (self s) b (heap s) (trace s))
    end.

(** Reading an attribute that may not exist yet. *)
Definition getattr {A} (name : string) (field : t -> attr A) : M Sys A :=
  fun s =>
    match field (self s) with
    | Bound a => (Ret a, s)
    | Unset => (Raise (AttributeError name), s)
    end.

Definition future_result {A} (future : Future A) : M Sys A :=
  match future with
  | Resolved a => ret a
  | Failed e => raise e
  end.

(** The attributes that only the class defines: the lookup on the instance
    ends at the class. *)
Definition done_event (self : t) : nat := _action_done_event cls.
Definition goal_handle_lock (self : t) : nat := _goal_handle_lock cls.

Definition acquire (l : nat) : M Sys unit :=
  set_heap (alter (fun o => match o with
                            | RLockObj d => RLockObj (S d)
                            | o => o
                            end) l) >>
  emit (Acquire l).

Definition release (l : nat) : M Sys unit :=
  set_heap (alter (fun o => match o with
                            | RLockObj d => RLockObj (pred d)
                            | o => o
                            end) l) >>
  emit (Release l).

(** [with lock: body] *)
Definition with_lock {A} (l : nat) (body : M Sys A) : M Sys A :=
  acquire l >> finally body (release l).

Definition event_clear (ev : nat) : M Sys unit :=
  set_heap (<[ev := EventObj false]>) >> emit (EventClear ev).

Definition event_set (ev : nat) : M Sys unit :=
  set_heap (<[ev := EventObj true]>) >> emit (EventSet ev).

Definition event_is_set (ev : nat) (s : Sys) : bool :=
  match heap s !! ev with
  | Some (EventObj true) => true
  | _ => false
  end.

Definition set_goal_handle (v : option nat) (x : t) : t :=
  mk (base x) (_action_name x) (_timeout x) (_node x) (_action_client x)
     (_create_goal_handler x) (_result_handler x) (_feedback_handler x)
     (_action_result x) (_action_status x) (Bound v).

Definition set_action_result (v : Result) (x : t) : t :=
  mk (base x) (_action_name x) (_timeout x) (_node x) (_action_client x)
     (_create_goal_handler x) (_result_handler x) (_feedback_handler x)
     (Bound v) (_action_status x) (_goal_handle x).

Definition set_action_status (v : Z) (x : t) : t :=
  mk (base x) (_action_name x) (_timeout x) (_node x) (_action_client x)
     (_create_goal_handler x) (_result_handler x) (_feedback_handler x)
     (_action_result x) (Bound v) (_goal_handle x).

Definition set_base (f : State.t -> State.t) (x : t) : t :=
  mk (f (base x)) (_action_name x) (_timeout x) (_node x) (_action_client x)
     (_create_goal_handler x) (_result_handler x) (_feedback_handler x)
     (_action_result x) (_action_status x) (_goal_handle x).

(** Lines 130-140. *)
Definition cancel_state : M Sys unit :=
  let* s := get in
  with_lock (goal_handle_lock (self s))
    (let* gh := getattr "_goal_handle" _goal_handle in
     match gh with
     | Some h => emit (CancelGoal h)
     | None => ret tt
     end) >>
  set_self (set_base State.cancel_state).

(** Lines 213-224. *)
Definition _get_result_callback (future : Future GetResultResponse) : M Sys unit :=
  let* r := future_result future in
  set_self (set_action_result (result r)) >>
  emit (Store "_action_result") >>
  let* r := future_result future in
  set_self (set_action_status (status r)) >>
  emit (Store "_action_status") >>
  let* s := get in
  event_set (done_event (self s)).

(** Lines 199-211.  A handle that is [None] has no [get_result_async]. *)
Definition _goal_response_callback (future : Future (option nat)) : M Sys unit :=
  let* s := get in
  with_lock (goal_handle_lock (self s))
    (let* v := future_result future in
     set_self (set_goal_handle v) >>
     emit (Store "_goal_handle") >>
     match v with
     | Some h =>
         emit (GetResultAsync h) >>
         emit (AddDoneCallback "_get_result_callback")
     | None => raise (AttributeError "get_result_async")
     end).

(** Lines 173-175, the closure over the blackboard of [execute]. *)
Definition feedback_handler (fb : FeedbackMessage) : M Sys unit :=
  let* s := get in
  match _feedback_handler (self s) with
  | Some handler => on_blackboard (handler (feedback fb))
  | None => ret tt
  end.

(** What other threads do to this instance while [execute] waits: the
    executor runs one of its three callbacks, or some thread calls its
    [cancel_state].  What other instances do is in [Activity] below. *)
Inductive Incoming :=
| GoalResponse (future : Future (option nat))
| FeedbackArrives (fb : FeedbackMessage)
| GetResult (future : Future GetResultResponse)
| CancelRequest.

Definition deliver (i : Incoming) : M Sys unit :=
  match i with
  | GoalResponse future => _goal_response_callback future
  | FeedbackArrives fb => feedback_handler fb
  | GetResult future => _get_result_callback future
  | CancelRequest => cancel_state
  end.

(** An exception that leaves a callback ends in the thread that ran it, not
    in the thread that waits. *)
Definition in_thread (m : M Sys unit) : M Sys unit :=
  fun s =>
    match m s with
    | (Raise e, s') => emit (Unhandled e) s'
    | (_, s') => (Ret tt, s')
    end.

(** [event.wait()]: returns once the flag is set; until then the other
    threads run, one whole method body at a time, in the order of [script].
    When the script is used up with the flag still clear, the caller stays
    blocked. *)
Fixpoint wait (ev : nat) (script : list Incoming) : M Sys unit :=
  fun s =>
    if event_is_set ev s then (Ret tt, s)
    else
      match script with
      | [] => (Block, s)
      | i :: script => (in_thread (deliver i) >> wait ev script) s
      end.

(** Lines 185-197. *)
Definition outcome_of_status : M Sys string :=
  let* st := getattr "_action_status" _action_status in
  if st =? GoalStatus.STATUS_CANCELED then ret CANCEL
  else if st =? GoalStatus.STATUS_ABORTED then ret ABORT
  else if st =? GoalStatus.STATUS_SUCCEEDED then
    let* s := get in
    match _result_handler (self s) with
    | Some handler =>
        let* r := getattr "_action_result" _action_result in
        on_blackboard (handler r)
    | None => ret SUCCEED
    end
  else ret ABORT.

(** Lines 158-183: [true] when the goal was sent and the wait has returned,
    [false] when the server did not become available.  [act_available] is
    the answer of [wait_for_server]. *)
Definition request (act_available : bool) (script : list Incoming) : M Sys bool :=
  let* s := get in
  let* goal := on_blackboard (_create_goal_handler (self s)) in
  emit (LogInfo ("Waiting for action '" +:+ _action_name (self s) +:+ "'")) >>
  emit (WaitForServer (_timeout (self s))) >>
  if negb act_available then
    emit (LogWarn ("Timeout reached, action '" +:+ _action_name (self s)
                   +:+ "' is not available")) >>
    ret false
  else
    event_clear (done_event (self s)) >>
    emit (LogInfo ("Sending goal to action '" +:+ _action_name (self s) +:+ "'")) >>
    emit (SendGoalAsync goal) >>
    emit (AddDoneCallback "_goal_response_callback") >>
    emit (EventWait (done_event (self s))) >>
    wait (done_event (self s)) script >>
    ret true.

(** Lines 142-197. *)
Definition execute (act_available : bool) (script : list Incoming) : M Sys string :=
  let* sent := request act_available script in
  if sent : bool then outcome_of_status else ret TIMEOUT.

(** *** Several instances

    The event and the lock are attributes of the class (lines 57 and 63), so
    every instance reaches the same two objects.  [as_instance other m] is
    another instance running one of its methods: on its own attributes, and
    on the synchronisation objects, the blackboard of the run and the log of
    effects, which it shares with [self].  The attributes it leaves are its
    own business: every activity comes with the instance it runs on. *)
Definition as_instance {A} (other : t) (m : M Sys A) : M Sys A :=
  fun s =>
    match m (mkSys other (bb s) (heap s) (trace s)) with
    | (r, s') => (r, mkSys (self s) (bb s') (heap s') (trace s'))
    end.

(** What other threads do while [execute] waits, to this instance or to
    another one. *)
Inductive Activity :=
| Own (i : Incoming)
| Foreign (other : t) (i : Incoming).

Definition run_activity (a : Activity) : M Sys unit :=
  match a with
  | Own i => deliver i
  | Foreign other i => as_instance other (deliver i)
  end.

(** [event.wait()] with the activities of all instances. *)
Fixpoint wait_among (ev : nat) (acts : list Activity) : M Sys unit :=
  fun s =>
    if event_is_set ev s then (Ret tt, s)
    else
      match acts with
      | [] => (Block, s)
      | a :: acts => (in_thread (run_activity a) >> wait_among ev acts) s
      end.

(** Lines 158-183 and 142-197 again, waiting among all instances. *)
Definition request_among (act_available : bool) (acts : list Activity) : M Sys bool :=
  let* s := get in
  let* goal := on_blackboard (_create_goal_handler (self s)) in
  emit (LogInfo ("Waiting for action '" +:+ _action_name (self s) +:+ "'")) >>
  emit (WaitForServer (_timeout (self s))) >>
  if negb act_available then
    emit (LogWarn ("Timeout reached, action '" +:+ _action_name (self s)
                   +:+ "' is not available")) >>
    ret false
  else
    event_clear (done_event (self s)) >>
    emit (LogInfo ("Sending goal to action '" +:+ _action_name (self s) +:+ "'")) >>
    emit (SendGoalAsync goal) >>
    emit (AddDoneCallback "_goal_response_callback") >>
    emit (EventWait (done_event (self s))) >>
    wait_among (done_event (self s)) acts >>
    ret true.

Definition execute_among (act_available : bool) (acts : list Activity) : M Sys string :=
  let* sent := request_among act_available acts in
  if sent : bool then outcome_of_status else ret TIMEOUT.

End Bridge.

Arguments t : clear implicits.
Arguments Sys : clear implicits.
Arguments Effect : clear implicits.
Arguments Incoming : clear implicits.
Arguments Activity : clear implicits.
Arguments FeedbackMessage : clear implicits.
Arguments GetResultResponse : clear implicits.

End ActionState.

(** ** Observations used by the statements *)

(** Repeated [execute] calls on one and the same [FooState] object: the
    object a call leaves is the object the next call gets.  Each call is
    recorded with its outcome and the counter it leaves. *)
Fixpoint repeat_execute (n : nat) (self : FooState.t) (c : DemoCtx)
    : list (Res string * Z) * FooState.t * DemoCtx :=
  match n with
  | O => ([], self, c)
  | S n =>
      let '(r, self, c) := FooState.execute self c in
      let '(rs, self', c') := repeat_execute n self c in
      ((r, FooState.counter self) :: rs, self', c')
  end.

(** The effects a step added: what [s'] has beyond the trace of [s]. *)
Definition added {Goal Result Feedback : Type}
    (s s' : ActionState.Sys Goal Result Feedback) : list (ActionState.Effect Goal) :=
  drop (length (ActionState.trace s)) (ActionState.trace s').

(** The synchronisation objects a sequence of effects operates on. *)
Definition sync_objects {Goal : Type} (tr : list (ActionState.Effect Goal)) : list nat :=
  omap (fun e => match e with
                 | ActionState.Acquire l | ActionState.Release l
                 | ActionState.EventClear l | ActionState.EventWait l
                 | ActionState.EventSet l => Some l
                 | _ => None
                 end) tr.

(** Whether every attribute store of [tr] happens while [lock] is held;
    [depth] is how often the lock is held when [tr] starts. *)
Fixpoint stores_under_lock {Goal : Type} (lock : nat) (depth : nat)
    (tr : list (ActionState.Effect Goal)) : bool :=
  match tr with
  | [] => true
  | ActionState.Acquire l :: tr =>
      stores_under_lock lock (if (l =? lock)%nat then S depth else depth) tr
  | ActionState.Release l :: tr =>
      stores_under_lock lock (if (l =? lock)%nat then pred depth else depth) tr
  | ActionState.Store _ :: tr =>
      (0 <? depth)%nat && stores_under_lock lock depth tr
  | _ :: tr => stores_under_lock lock depth tr
  end.

(** The effects a step adds, with the synchronisation objects among them
    confined to the event and the lock of the class. *)
Definition extends_on_class_objects {Goal Result Feedback : Type}
    (s s' : ActionState.Sys Goal Result Feedback) : Prop :=
  exists a,
    ActionState.trace s' = (ActionState.trace s ++ a)%list
    /\ forall l, l ∈ sync_objects a ->
                 l = ActionState._action_done_event ActionState.cls
                 \/ l = ActionState._goal_handle_lock ActionState.cls.

(** A small client used to run the model: the goal is the text "goal", the
    result handler (when asked for) stores the result on the blackboard. *)
Definition demo_client (create_goal_handler : M (gmap string string) string)
    (outcomes : OutcomesArg) (timeout : option Q)
    : Res (ActionState.t string string string) :=
  ActionState.__init__ "Fibonacci" "/fibonacci" (Some create_goal_handler)
    outcomes None None None timeout.

Definition fresh_sys (self : ActionState.t string string string)
    : ActionState.Sys string string string :=
  ActionState.mkSys self ∅ ActionState.heap0 [].

(** [n] successive [cancel_state] calls; an exception ends the sequence. *)
Fixpoint cancel_times {Goal Result Feedback : Type} (n : nat)
    : M (ActionState.Sys Goal Result Feedback) unit :=
  match n with
  | O => ret tt
  | S n => ActionState.cancel_state >> cancel_times n
  end.

(** Two instances agree on everything the constructor set up: the declared
    outcomes, the action name, the timeout, the node, the client and the three
    user functions. *)
Definition same_config {Goal Result Feedback : Type}
    (a b : ActionState.t Goal Result Feedback) : Prop :=
  State._outcomes (ActionState.base a) = State._outcomes (ActionState.base b)
  /\ ActionState._action_name a = ActionState._action_name b
  /\ ActionState._timeout a = ActionState._timeout b
  /\ ActionState._node a = ActionState._node b
  /\ ActionState._action_client a = ActionState._action_client b
  /\ ActionState._create_goal_handler a = ActionState._create_goal_handler b
  /\ ActionState._result_handler a = ActionState._result_handler b
  /\ ActionState._feedback_handler a = ActionState._feedback_handler b.

(** ** Theorems: the demo *)

Lemma FooState_execute_step (self : FooState.t) (c : DemoCtx) (j : nat) :
  FooState.counter self = Z.of_nat (Nat.min j 3) ->
  let '(r, self', _) := FooState.execute self c in
  FooState.counter self' = Z.of_nat (Nat.min (S j) 3)
  /\ r = (if (S j <=? 3)%nat then Ret "outcome1" else Ret "outcome2").
Proof.
  intros Hc. unfold FooState.execute. rewrite Hc.
  destruct (Nat.leb_spec (S j) 3) as [Hle | Hgt];
    destruct (Z.ltb_spec (Z.of_nat (Nat.min j 3)) 3) as [Hlt | Hge];
    cbn [FooState.counter]; try lia; split; try reflexivity; lia.
Qed.

Lemma repeat_execute_from (n : nat) :
  forall (self : FooState.t) (c : DemoCtx) (j : nat),
    FooState.counter self = Z.of_nat (Nat.min j 3) ->
    (repeat_execute n self c).1.1
    = map (fun k => if (k <=? 3)%nat
                    then (Ret "outcome1", Z.of_nat k)
                    else (Ret "outcome2", 3))
          (seq (S j) n).
Proof.
  induction n as [| n IH]; intros self c j Hc; [reflexivity |].
  cbn [repeat_execute seq map].
  pose proof (FooState_execute_step self c j Hc) as Hstep.
  destruct (FooState.execute self c) as [[r self1] c1].
  destruct Hstep as [Hc1 Hr].
  specialize (IH self1 c1 (S j) Hc1).
  destruct (repeat_execute n self1 c1) as [[rs self2] c2].
  cbn [fst] in IH |- *. rewrite IH, Hr, Hc1.
  f_equal.
  destruct (Nat.leb_spec (S j) 3); do 2 f_equal; lia.
Qed.

(** C9: on one FooState instance the counter persists from call to call and
    is never reset: of [n] successive calls, call number [k] returns outcome1
    and leaves the counter at [k] when [k <= 3], and returns outcome2 with
    the counter left at 3 when [k > 3]. *)
Theorem C9_counter_persists (n : nat) (c : DemoCtx) :
  (repeat_execute n FooState.__init__ c).1.1
  = map (fun k => if (k <=? 3)%nat
                  then (Ret "outcome1", Z.of_nat k)
                  else (Ret "outcome2", 3))
        (seq 1 n).
Proof. apply repeat_execute_from. reflexivity. Qed.

(** C8: the demo machine, given room for at least seven state executions,
    activates FOO,BAR,FOO,BAR,FOO,BAR,FOO in that order and returns outcome4;
    the body of FOO ran four times and the body of BAR three times. *)
Theorem C8_demo_run (fuel : nat) :
  (7 <= fuel)%nat ->
  exists c,
    main fuel = Some (Ret "outcome4", c)
    /\ activations (effects c) = ["FOO"; "BAR"; "FOO"; "BAR"; "FOO"; "BAR"; "FOO"]
    /\ executions "FOO" (effects c) = 4%nat
    /\ executions "BAR" (effects c) = 3%nat.
Proof.
  intros Hfuel.
  do 7 (destruct fuel as [| fuel]; [lia |]).
  eexists. split; [vm_compute; reflexivity |].
  vm_compute. repeat split.
Qed.

Lemma C8_demo_run_witness :
  exists c,
    main 7 = Some (Ret "outcome4", c)
    /\ activations (effects c) = ["FOO"; "BAR"; "FOO"; "BAR"; "FOO"; "BAR"; "FOO"]
    /\ executions "FOO" (effects c) = 4%nat
    /\ executions "BAR" (effects c) = 3%nat.
Proof. apply (C8_demo_run 7). lia. Defined.

(** ** Further properties of the demo states *)

(** X2: what FOO writes, BAR reads: when the counter is below 3, FooState
    returns outcome1 and a BarState executed next on the same blackboard
    returns outcome3 and logs, as its last line, "Counter: " followed by the
    incremented counter; the blackboard differs from the initial one in the
    key foo_str only. *)
Theorem Foo_then_Bar_reads_the_write (foo : FooState.t) (bar : BarState.t)
    (c : DemoCtx) :
  FooState.counter foo < 3 ->
  let '(r1, foo', c1) := FooState.execute foo c in
  let '(r2, _, c2) := BarState.execute bar c1 in
  r1 = Ret "outcome1"
  /\ r2 = Ret "outcome3"
  /\ FooState.counter foo' = FooState.counter foo + 1
  /\ last (effects c2)
     = Some (YASMIN_LOG_INFO ("Counter: " +:+ pretty (FooState.counter foo + 1)))
  /\ blackboard c2
     = <["foo_str" := "Counter: " +:+ pretty (FooState.counter foo + 1)]>
         (blackboard c).
Proof.
  intros Hlt. unfold FooState.execute.
  destruct (Z.ltb_spec (FooState.counter foo) 3) as [_ | ?]; [| lia].
  unfold BarState.execute, bb_get, bb_set, emit.
  cbn [blackboard effects FooState.counter].
  rewrite lookup_insert_eq. cbn [blackboard effects].
  repeat split. apply last_snoc.
Qed.

Lemma Foo_then_Bar_reads_the_write_witness :
  let '(r1, foo', c1) := FooState.execute FooState.__init__ (mkDemoCtx ∅ []) in
  let '(r2, _, c2) := BarState.execute BarState.__init__ c1 in
  r1 = Ret "outcome1"
  /\ r2 = Ret "outcome3"
  /\ FooState.counter foo' = 0 + 1
  /\ last (effects c2) = Some (YASMIN_LOG_INFO ("Counter: " +:+ pretty (0 + 1)))
  /\ blackboard c2 = <["foo_str" := "Counter: " +:+ pretty (0 + 1)]> ∅.
Proof.
  apply (Foo_then_Bar_reads_the_write FooState.__init__ BarState.__init__
           (mkDemoCtx ∅ [])).
  reflexivity.
Defined.

Lemma repeat_execute_blackboard (n : nat) :
  forall (self : FooState.t) (c : DemoCtx) (j : nat),
    FooState.counter self = Z.of_nat (Nat.min j 3) ->
    ((1 <= j)%nat ->
     blackboard c !! "foo_str"
     = Some ("Counter: " +:+ pretty (Z.of_nat (Nat.min j 3)))) ->
    (1 <= j + n)%nat ->
    blackboard (repeat_execute n self c).2 !! "foo_str"
    = Some ("Counter: " +:+ pretty (Z.of_nat (Nat.min (j + n) 3))).
Proof.
  induction n as [| n IH]; intros self c j Hc Hbb Hpos.
  - rewrite Nat.add_0_r in *. cbn. by apply Hbb.
  - cbn [repeat_execute].
    pose proof (FooState_execute_step self c j Hc) as Hstep.
    assert (Hbb1 : blackboard (FooState.execute self c).2 !! "foo_str"
                   = Some ("Counter: " +:+ pretty (Z.of_nat (Nat.min (S j) 3)))).
    { unfold FooState.execute. rewrite Hc.
      destruct (Z.ltb_spec (Z.of_nat (Nat.min j 3)) 3) as [Hlt | Hge];
        cbn [snd blackboard bb_set emit FooState.counter].
      - rewrite lookup_insert_eq. do 3 f_equal. lia.
      - assert (3 <= j)%nat by lia.
        rewrite Hbb by lia. do 3 f_equal. lia. }
    destruct (FooState.execute self c) as [[r self1] c1].
    destruct Hstep as [Hc1 _]. cbn [snd] in Hbb1.
    specialize (IH self1 c1 (S j) Hc1 (fun _ => Hbb1)).
    destruct (repeat_execute n self1 c1) as [[rs self2] c2].
    cbn [snd] in IH |- *. rewrite IH by lia. do 4 f_equal. lia.
Qed.

(** X3: after [n >= 1] successive calls on a new FooState, the blackboard
    entry foo_str reads "Counter: " followed by [min n 3]: the calls that
    return outcome2 leave the entry of the third call in place. *)
Theorem FooState_blackboard_after_calls (n : nat) (c : DemoCtx) :
  (1 <= n)%nat ->
  blackboard (repeat_execute n FooState.__init__ c).2 !! "foo_str"
  = Some ("Counter: " +:+ pretty (Z.of_nat (Nat.min n 3))).
Proof.
  intros Hn. apply (repeat_execute_blackboard n FooState.__init__ c 0);
    [reflexivity | lia | lia].
Qed.

Lemma FooState_blackboard_after_calls_witness :
  blackboard (repeat_execute 5 FooState.__init__ (mkDemoCtx ∅ [])).2 !! "foo_str"
  = Some ("Counter: " +:+ pretty (Z.of_nat (Nat.min 5 3))).
Proof. apply (FooState_blackboard_after_calls 5). lia. Defined.

(** X4: whatever its counter (also outside 0..3), a FooState call returns one
    of its two declared outcomes, never raises, keeps the declared outcomes,
    and never lowers the counter nor raises it by more than one. *)
Theorem FooState_execute_contract (self : FooState.t) (c : DemoCtx) :
  State._outcomes (FooState.base self) = ["outcome1"; "outcome2"] ->
  let '(r, self', _) := FooState.execute self c in
  (exists o, r = Ret o /\ o ∈ State._outcomes (FooState.base self'))
  /\ FooState.base self' = FooState.base self
  /\ FooState.counter self <= FooState.counter self' <= FooState.counter self + 1.
Proof.
  intros Houts. unfold FooState.execute.
  destruct (FooState.counter self <? 3); cbn [FooState.base FooState.counter];
    (split; [eexists; split; [reflexivity | rewrite Houts, !elem_of_cons; tauto] |]);
    split; try reflexivity; lia.
Qed.

Lemma FooState_execute_contract_witness :
  let '(r, self', _) := FooState.execute FooState.__init__ (mkDemoCtx ∅ []) in
  (exists o, r = Ret o /\ o ∈ State._outcomes (FooState.base self'))
  /\ FooState.base self' = FooState.base FooState.__init__
  /\ FooState.counter FooState.__init__ <= FooState.counter self'
     <= FooState.counter FooState.__init__ + 1.
Proof.
  apply (FooState_execute_contract FooState.__init__ (mkDemoCtx ∅ [])).
  reflexivity.
Defined.

(** ** Theorems: the action state *)

Import ActionState.

Section BridgeFacts.
Context {Goal Result Feedback : Type}.
Implicit Types (s : Sys Goal Result Feedback) (self : t Goal Result Feedback).
Implicit Types (script : list (Incoming Result Feedback)).

(** C10 (as amended): a constructed ActionState declares SUCCEED, ABORT and
    CANCEL, then TIMEOUT exactly when the timeout argument is truthy, then
    the caller's extra outcomes in their order; so TIMEOUT is declared exactly
    when the timeout is truthy or the caller listed it among the extras. *)
Theorem C10_declared_outcomes action_type action_name create_goal_handler
    outcomes result_handler feedback_handler node timeout self :
  @__init__ Goal Result Feedback action_type action_name create_goal_handler
    outcomes result_handler feedback_handler node timeout = Ret self ->
  let extras := match outcomes with OutcomesList l => l | _ => [] end in
  State._outcomes (base self)
  = ([SUCCEED; ABORT; CANCEL]
     ++ (if truthy_timeout timeout then [TIMEOUT] else []) ++ extras)%list
  /\ SUCCEED ∈ State._outcomes (base self)
  /\ ABORT ∈ State._outcomes (base self)
  /\ CANCEL ∈ State._outcomes (base self)
  /\ (TIMEOUT ∈ State._outcomes (base self)
      <-> truthy_timeout timeout = true \/ TIMEOUT ∈ extras).
Proof.
  intros Hinit extras.
  assert (Houts : State._outcomes (base self)
    = ([SUCCEED; ABORT; CANCEL]
       ++ (if truthy_timeout timeout then [TIMEOUT] else []) ++ extras)%list).
  { unfold __init__ in Hinit. subst extras.
    destruct outcomes as [| [| o l] | [| o l]], create_goal_handler,
      (truthy_timeout timeout); simplify_eq; cbn; try reflexivity. }
  split; [exact Houts |]. rewrite Houts.
  repeat split; try (cbn; rewrite !elem_of_cons; tauto).
  - intros Hin. rewrite !elem_of_app in Hin.
    destruct Hin as [Hin | [Hin | Hin]]; [| | by right].
    + exfalso. rewrite !elem_of_cons, elem_of_nil in Hin.
      destruct Hin as [? | [? | [? | []]]]; discriminate.
    + left. destruct (truthy_timeout timeout); [reflexivity |].
      by apply elem_of_nil in Hin.
  - intros [-> | Hin]; rewrite !elem_of_app; [right; left; apply list_elem_of_here | by right; right].
Qed.

(** Unfolding of the monadic plumbing, so that a method applied to a state
    shows the state it leaves. *)
Ltac run_methods :=
  cbv [execute request outcome_of_status cancel_state _goal_response_callback
       _get_result_callback feedback_handler deliver in_thread with_lock
       acquire release finally event_clear event_set emit set_self set_heap
       on_blackboard getattr future_result bind ret raise block get modify];
  cbn [self bb heap trace fst snd].

Lemma in_thread_returns (m : M (Sys Goal Result Feedback) unit) s :
  (in_thread m s).1 = Ret tt.
Proof. unfold in_thread. destruct (m s) as [[| |] ?]; reflexivity. Qed.





(** C6: when the action server does not become available within the
    timeout, [execute] (having built the goal) returns TIMEOUT; it sends no
    goal, asks for no result, and leaves the instance (so also the absence of
    a goal handle) and the synchronisation objects as they were. *)
Theorem C6_unavailable_returns_timeout s script goal b' :
  _create_goal_handler (self s) (bb s) = (Ret goal, b') ->
  let s' := (execute false script s).2 in
  execute false script s = (Ret TIMEOUT, s')
  /\ self s' = self s
  /\ heap s' = heap s
  /\ added s s'
     = [LogInfo ("Waiting for action '" +:+ _action_name (self s) +:+ "'");
        WaitForServer (_timeout (self s));
        LogWarn ("Timeout reached, action '" +:+ _action_name (self s)
                 +:+ "' is not available")]
  /\ (forall g, SendGoalAsync g ∉ added s s')
  /\ (forall h, GetResultAsync h ∉ added s s').
Proof.
  intros Hgoal s'. subst s'. unfold added.
  run_methods. rewrite Hgoal. cbn.
  rewrite <- !app_assoc, drop_app_length. cbn.
  repeat split; intros x Hin; rewrite !elem_of_cons, elem_of_nil in Hin;
    destruct Hin as [? | [? | [? | []]]]; discriminate.
Qed.

Lemma extends_refl s s' :
  trace s' = trace s -> extends_on_class_objects s s'.
Proof.
  intros E. exists []. rewrite app_nil_r. split; [exact E |].
  intros l Hin. by apply elem_of_nil in Hin.
Qed.

Lemma extends_trans s1 s2 s3 :
  extends_on_class_objects s1 s2 -> extends_on_class_objects s2 s3 ->
  extends_on_class_objects s1 s3.
Proof.
  intros (a & Ea & Ha) (b & Eb & Hb). exists (a ++ b)%list.
  split; [by rewrite Eb, Ea, app_assoc |].
  intros l. unfold sync_objects. rewrite omap_app, elem_of_app.
  intros [Hin | Hin]; [by apply Ha | by apply Hb].
Qed.

Ltac solve_extends :=
  cbv [goal_handle_lock done_event]; cbn [self bb heap trace fst snd];
  rewrite <- ?app_assoc; eexists; split; [reflexivity |];
  let l := fresh "l" in let Hin := fresh "Hin" in
  intros l Hin; cbn in Hin;
  repeat (apply elem_of_cons in Hin as [-> | Hin]);
  try (by left); try (by right); by apply elem_of_nil in Hin.

Lemma deliver_extends (i : Incoming Result Feedback) s :
  extends_on_class_objects s (in_thread (deliver i) s).2.
Proof.
  destruct i as [[[h |] | e] | fb | [r | e] |]; run_methods.
  - solve_extends.
  - solve_extends.
  - solve_extends.
  - destruct (_feedback_handler (self s)) as [handler |]; cbn.
    + destruct (handler (feedback fb) (bb s)) as [[| |] b]; cbn;
        (by apply extends_refl) || solve_extends.
    + by apply extends_refl.
  - solve_extends.
  - solve_extends.
  - destruct (_goal_handle (self s)) as [| [h |]]; solve_extends.
Qed.

Lemma wait_extends script :
  forall s, extends_on_class_objects s (wait (_action_done_event cls) script s).2.
Proof.
  induction script as [| i script IH]; intros s; cbn [wait];
    destruct (event_is_set (_action_done_event cls) s);
    try (by apply extends_refl).
  unfold bind.
  pose proof (in_thread_returns (deliver i) s) as Hret.
  pose proof (deliver_extends i s) as Hstep.
  destruct (in_thread (deliver i) s) as [r' s']. cbn in Hret, Hstep. subst r'.
  eapply extends_trans; [exact Hstep | apply IH].
Qed.

Lemma outcome_of_status_trace s :
  trace (outcome_of_status s).2 = trace s
  /\ heap (outcome_of_status s).2 = heap s
  /\ self (outcome_of_status s).2 = self s.
Proof.
  cbv [outcome_of_status bind getattr get ret on_blackboard].
  destruct (_action_status (self s)) as [| st]; [done |].
  destruct (st =? GoalStatus.STATUS_CANCELED); [done |].
  destruct (st =? GoalStatus.STATUS_ABORTED); [done |].
  destruct (st =? GoalStatus.STATUS_SUCCEEDED); [| done].
  destruct (_result_handler (self s)) as [handler |]; [| done].
  destruct (_action_result (self s)) as [| r]; [done |].
  by destruct (handler r (bb s)).
Qed.

Lemma execute_extends act_available script s :
  extends_on_class_objects s (execute act_available script s).2.
Proof.
  assert (Hreq : extends_on_class_objects s (request act_available script s).2).
  { cbv [request bind get on_blackboard emit event_clear set_heap modify ret
         done_event].
    destruct (_create_goal_handler (self s) (bb s)) as [[goal | e |] b];
      cbn [self bb heap trace snd]; try (by apply extends_refl).
    destruct act_available; cbn [negb]; [| solve_extends].
    match goal with
    | |- context [wait _ script ?s2] =>
        pose proof (wait_extends script s2) as Hw;
        destruct (wait (_action_done_event cls) script s2) as [[[] | e |] sw]
    end; cbn [snd] in Hw |- *;
      (eapply extends_trans; [| exact Hw]); solve_extends. }
  unfold execute, bind.
  destruct (request act_available script s) as [[[|] | e |] s1];
    cbn [snd] in Hreq |- *; try exact Hreq.
  eapply extends_trans; [exact Hreq |].
  apply extends_refl, outcome_of_status_trace.
Qed.

Lemma added_app s s' a :
  trace s' = (trace s ++ a)%list -> added s s' = a.
Proof. intros E. unfold added. by rewrite E, drop_app_length. Qed.

(** C1 (as amended): [cancel_state] forwards a cancellation only for the
    handle that is recorded when it runs; the acceptance callback that runs
    afterwards records the new handle and asks for its result, and forwards
    no cancellation for it. *)
Theorem C1_acceptance_forwards_no_cancel s (h : nat) :
  let s1 := (cancel_state s).2 in
  let s2 := (_goal_response_callback (Resolved (Some h)) s1).2 in
  added s s1
  = ([Acquire (goal_handle_lock (self s))]
     ++ match _goal_handle (self s) with
        | Bound (Some h0) => [CancelGoal h0]
        | _ => []
        end
     ++ [Release (goal_handle_lock (self s))])%list
  /\ added s1 s2
     = [Acquire (goal_handle_lock (self s)); Store "_goal_handle";
        GetResultAsync h; AddDoneCallback "_get_result_callback";
        Release (goal_handle_lock (self s))]
  /\ _goal_handle (self s2) = Bound (Some h)
  /\ (forall h', CancelGoal h' ∉ added s1 s2).
Proof.
  intros s1 s2.
  assert (H1 : added s s1
    = ([Acquire (goal_handle_lock (self s))]
       ++ match _goal_handle (self s) with
          | Bound (Some h0) => [CancelGoal h0]
          | _ => []
          end
       ++ [Release (goal_handle_lock (self s))])%list).
  { subst s1. apply added_app. run_methods.
    destruct (_goal_handle (self s)) as [| [h0 |]]; cbn;
      by rewrite <- ?app_assoc. }
  assert (H2 : added s1 s2
    = [Acquire (goal_handle_lock (self s)); Store "_goal_handle";
       GetResultAsync h; AddDoneCallback "_get_result_callback";
       Release (goal_handle_lock (self s))]).
  { subst s2. apply added_app. run_methods. cbn. by rewrite <- ?app_assoc. }
  split; [exact H1 |]. split; [exact H2 |]. split.
  - subst s2. run_methods. reflexivity.
  - intros h'. rewrite H2, !elem_of_cons, elem_of_nil.
    intros [? | [? | [? | [? | [? | []]]]]]; discriminate.
Qed.

(** C2, at the failing input: on an instance that [__init__] has just built,
    [cancel_state] raises AttributeError when it reads [_goal_handle], which
    nothing has assigned yet; the base class's canceled flag stays unset. *)
Theorem C2_cancel_before_first_goal_raises action_type action_name
    create_goal_handler outcomes result_handler feedback_handler node timeout
    self b h (tr : list (Effect Goal)) :
  @__init__ Goal Result Feedback action_type action_name create_goal_handler
    outcomes result_handler feedback_handler node timeout = Ret self ->
  let run := cancel_state (mkSys self b h tr) in
  run.1 = Raise (AttributeError "_goal_handle")
  /\ State._canceled (base (ActionState.self run.2)) = false.
Proof.
  intros Hinit run. subst run.
  assert (Hgh : _goal_handle self = Unset /\ State._canceled (base self) = false).
  { unfold __init__ in Hinit.
    destruct outcomes as [| [| o l] | [| o l]], create_goal_handler;
      simplify_eq; done. }
  destruct Hgh as [Hgh Hc]. run_methods. rewrite Hgh. cbn. done.
Qed.

(** Whatever the state, [cancel_state] leaves the completion event as it is. *)
Lemma cancel_state_leaves_done_event s :
  event_is_set (done_event (self s)) (cancel_state s).2
  = event_is_set (done_event (self s)) s.
Proof.
  unfold event_is_set. run_methods.
  cbv [goal_handle_lock done_event cls _action_done_event _goal_handle_lock].
  destruct (_goal_handle (self s)) as [| [h0 |]]; cbn;
    by rewrite !lookup_alter_ne by done.
Qed.

(** C3 (as amended): no exception of a user function is caught.  One raised
    by the goal-construction function leaves [execute] as it is, before
    anything is logged or sent; one raised by the result handler, called on
    STATUS_SUCCEEDED, leaves [execute] too; one raised by the feedback
    function leaves the feedback callback into the thread that ran it, with
    the instance and the synchronisation objects untouched. *)
Theorem C3_user_exceptions_propagate s e b' :
  (forall act_available script,
      _create_goal_handler (self s) (bb s) = (Raise e, b') ->
      execute act_available script s
      = (Raise e, mkSys (self s) b' (heap s) (trace s)))
  /\ (forall script s0 result_handler r,
        request true script s0 = (Ret true, s) ->
        _action_status (self s) = Bound GoalStatus.STATUS_SUCCEEDED ->
        _result_handler (self s) = Some result_handler ->
        _action_result (self s) = Bound r ->
        result_handler r (bb s) = (Raise e, b') ->
        execute true script s0
        = (Raise e, mkSys (self s) b' (heap s) (trace s)))
  /\ (forall handler fb,
        _feedback_handler (self s) = Some handler ->
        handler (feedback fb) (bb s) = (Raise e, b') ->
        feedback_handler fb s = (Raise e, mkSys (self s) b' (heap s) (trace s))
        /\ in_thread (deliver (FeedbackArrives fb)) s
           = (Ret tt, mkSys (self s) b' (heap s) (trace s ++ [Unhandled e]))).
Proof.
  split; [| split].
  - intros act_available script Hgoal. run_methods. by rewrite Hgoal.
  - intros script s0 result_handler r Hreq Hst Hrh Hres Hraise.
    unfold execute, bind. rewrite Hreq.
    cbv [outcome_of_status bind getattr get ret on_blackboard].
    rewrite Hst. cbn. by rewrite Hrh, Hres, Hraise.
  - intros handler fb Hfh Hraise.
    split; run_methods; by rewrite Hfh, Hraise.
Qed.

(** C7 (as amended): the result callback takes no lock; it stores the
    result, then the status, then sets the completion event, and does nothing
    else.  A wait on the event that finds it set by this callback returns at
    once, in the state the callback left, and a read of the status and of the
    result in that state gives the ones the callback wrote. *)
Theorem C7_result_stored_before_event (r : GetResultResponse Result) s script
    (acts : list (Activity Goal Result Feedback)) :
  let s' := (_get_result_callback (Resolved r) s).2 in
  added s s'
  = [Store "_action_result"; Store "_action_status";
     EventSet (done_event (self s))]
  /\ _action_result (self s') = Bound (result r)
  /\ _action_status (self s') = Bound (status r)
  /\ event_is_set (done_event (self s)) s' = true
  /\ heap s' !! goal_handle_lock (self s) = heap s !! goal_handle_lock (self s)
  /\ wait (done_event (self s)) script s' = (Ret tt, s')
  /\ wait_among (done_event (self s)) acts s' = (Ret tt, s')
  /\ getattr "_action_status" _action_status s' = (Ret (status r), s')
  /\ getattr "_action_result" _action_result s' = (Ret (result r), s').
Proof.
  cbn zeta.
  assert (Hset : event_is_set (done_event (self s))
                   (_get_result_callback (Resolved r) s).2 = true).
  { unfold event_is_set. run_methods. by rewrite lookup_insert_eq. }
  repeat split.
  - apply added_app. run_methods. by rewrite <- ?app_assoc.
  - exact Hset.
  - run_methods. by rewrite lookup_insert_ne.
  - destruct script; cbn [wait]; by rewrite Hset.
  - destruct acts; cbn [wait_among]; by rewrite Hset.
Qed.

End BridgeFacts.

(** ** The statements at concrete inputs *)

(** Two transport schedules: a goal that is accepted under handle [h] and
    succeeds, and the same with a [cancel_state] call from another thread
    before the acceptance callback runs. *)
Definition accepted_then_succeeded (h : nat) (r : string)
    : list (Incoming string string) :=
  [GoalResponse (Resolved (Some h));
   GetResult (Resolved (mkResponse GoalStatus.STATUS_SUCCEEDED r))].

Definition canceled_before_acceptance (h : nat) (r : string)
    : list (Incoming string string) :=
  CancelRequest :: accepted_then_succeeded h r.

Ltac not_in_list :=
  let Hin := fresh "Hin" in
  intros Hin; repeat (apply elem_of_cons in Hin as [Hin | Hin]; [discriminate |]);
  by apply elem_of_nil in Hin.

Ltac in_list :=
  repeat first [apply list_elem_of_here | apply list_elem_of_further].

(** C1, counterexample: on an instance whose first goal (handle 1) is done,
    a second [execute] during which [cancel_state] runs before the acceptance
    callback records handle 2: the cancellation goes to the old handle 1,
    none is ever forwarded for handle 2, and [execute] returns SUCCEED. *)
Lemma C1_cancel_before_acceptance_is_lost :
  match demo_client (ret "goal") OutcomesNone None with
  | Ret a =>
      let s1 := (execute true (accepted_then_succeeded 1 "r1") (fresh_sys a)).2 in
      let run := execute true (canceled_before_acceptance 2 "r2") s1 in
      let s2 := snd run in
      added s1 s2
      = [LogInfo "Waiting for action '/fibonacci'"; WaitForServer None;
         EventClear 0; LogInfo "Sending goal to action '/fibonacci'";
         SendGoalAsync "goal"; AddDoneCallback "_goal_response_callback";
         EventWait 0;
         Acquire 1; CancelGoal 1; Release 1;
         Acquire 1; Store "_goal_handle"; GetResultAsync 2;
         AddDoneCallback "_get_result_callback"; Release 1;
         Store "_action_result"; Store "_action_status"; EventSet 0]
      /\ (CancelGoal 2 ∉ added s1 s2)
      /\ fst run = Ret SUCCEED
  | _ => False
  end.
Proof.
  vm_compute. split; [reflexivity |]. split; [not_in_list | reflexivity].
Qed.

(** C3, counterexample: a goal-construction function that raises; [execute]
    raises the same exception instead of returning ABORT, and the completion
    event is not touched. *)
Lemma C3_goal_exception_is_not_abort :
  match demo_client (raise (UserException "no goal")) OutcomesNone None with
  | Ret a =>
      let run := execute true (accepted_then_succeeded 1 "r1") (fresh_sys a) in
      run.1 = Raise (UserException "no goal")
      /\ run.1 <> Ret ABORT
      /\ added (fresh_sys a) run.2 = []
  | _ => False
  end.
Proof. vm_compute. repeat split. discriminate. Qed.

(** C4, counterexample: two successive [execute] calls on one instance wait
    on the same event object (location 0) and take the same lock (location 1). *)
Lemma C4_two_calls_share_event_and_lock :
  match demo_client (ret "goal") OutcomesNone None with
  | Ret a =>
      let s0 := fresh_sys a in
      let s1 := (execute true (accepted_then_succeeded 1 "r1") s0).2 in
      let s2 := (execute true (accepted_then_succeeded 2 "r2") s1).2 in
      EventWait 0 ∈ added s0 s1 /\ EventWait 0 ∈ added s1 s2
      /\ Acquire 1 ∈ added s0 s1 /\ Acquire 1 ∈ added s1 s2
      /\ sync_objects (added s0 s1) = sync_objects (added s1 s2)
  | _ => False
  end.
Proof. vm_compute. repeat split; in_list. Qed.

(** C7, counterexample: the result callback stores the result and the status
    while the goal-handle lock is not held. *)
Lemma C7_result_stored_without_lock :
  match demo_client (ret "goal") OutcomesNone None with
  | Ret a =>
      let s := fresh_sys a in
      let s' := (_get_result_callback
                   (Resolved (mkResponse GoalStatus.STATUS_SUCCEEDED "r1")) s).2 in
      added s s' = [Store "_action_result"; Store "_action_status"; EventSet 0]
      /\ stores_under_lock (goal_handle_lock a) 0 (added s s') = false
      /\ heap s !! goal_handle_lock a = Some (RLockObj 0)
  | _ => False
  end.
Proof. vm_compute. repeat split. Qed.

(** C10, counterexample: with no timeout and TIMEOUT among the caller's extra
    outcomes, the constructed state declares TIMEOUT although the timeout
    argument is not truthy. *)
Lemma C10_timeout_declared_without_timeout :
  match demo_client (ret "goal") (OutcomesList [TIMEOUT]) None with
  | Ret a =>
      TIMEOUT ∈ State._outcomes (base a) /\ truthy_timeout None = false
      /\ ~ ((TIMEOUT ∈ State._outcomes (base a)) <-> truthy_timeout None = true)
  | _ => False
  end.
Proof.
  assert (Hin : TIMEOUT ∈ [SUCCEED; ABORT; CANCEL; TIMEOUT]) by in_list.
  cbn. split; [exact Hin |]. split; [reflexivity |].
  intros [Hcontra _]. specialize (Hcontra Hin). discriminate.
Qed.

(** ** Witnesses *)

Lemma C2_cancel_before_first_goal_raises_witness :
  exists a,
    demo_client (ret "goal") OutcomesNone (Some 2%Q) = Ret a
    /\ (cancel_state (fresh_sys a)).1 = Raise (AttributeError "_goal_handle")
    /\ State._canceled (base (self (cancel_state (fresh_sys a)).2)) = false.
Proof.
  eexists. split; [reflexivity |].
  eapply (C2_cancel_before_first_goal_raises
            "Fibonacci" "/fibonacci" (Some (ret "goal")) OutcomesNone None None
            None (Some 2%Q)).
  reflexivity.
Defined.

Lemma C10_declared_outcomes_witness :
  exists a,
    demo_client (ret "goal") (OutcomesList ["retry"]) (Some 2%Q) = Ret a
    /\ State._outcomes (base a) = [SUCCEED; ABORT; CANCEL; TIMEOUT; "retry"]
    /\ (TIMEOUT ∈ State._outcomes (base a)).
Proof.
  eexists. split; [reflexivity |].
  destruct (C10_declared_outcomes
              "Fibonacci" "/fibonacci" (Some (ret "goal")) (OutcomesList ["retry"])
              (None : option (string -> M (gmap string string) string))
              (None : option (string -> M (gmap string string) unit))
              None (Some 2%Q) _ eq_refl) as (Houts & _ & _ & _ & Ht).
  split; [exact Houts |]. apply Ht. left. reflexivity.
Defined.

Lemma C6_unavailable_returns_timeout_witness :
  exists a,
    demo_client (ret "goal") OutcomesNone (Some 2%Q) = Ret a
    /\ let run := execute false (accepted_then_succeeded 1 "r1") (fresh_sys a) in
       run = (Ret TIMEOUT, snd run)
       /\ (forall g, SendGoalAsync g ∉ added (fresh_sys a) (snd run)).
Proof.
  eexists. split; [reflexivity |].
  match goal with
  | |- let run := execute false ?script ?s in _ =>
      destruct (C6_unavailable_returns_timeout s script "goal" ∅ eq_refl)
        as (Hrun & _ & _ & _ & Hsend & _)
  end.
  split; [exact Hrun | exact Hsend].
Defined.


Lemma C3_user_exceptions_propagate_witness :
  exists a,
    demo_client (raise (UserException "no goal")) OutcomesNone None = Ret a
    /\ execute true (accepted_then_succeeded 1 "r1") (fresh_sys a)
       = (Raise (UserException "no goal"), fresh_sys a).
Proof.
  eexists. split; [reflexivity |].
  match goal with
  | |- execute true ?script ?s = _ =>
      destruct (C3_user_exceptions_propagate s (UserException "no goal") ∅)
        as (Hgoal & _ & _);
      exact (Hgoal true script eq_refl)
  end.
Defined.

(** ** Further properties of the action state *)

Section BridgeMore.
Context {Goal Result Feedback : Type}.
Implicit Types (s : Sys Goal Result Feedback) (self : t Goal Result Feedback).
Implicit Types (script : list (Incoming Result Feedback)).

Ltac run_methods :=
  cbv [execute request outcome_of_status cancel_state _goal_response_callback
       _get_result_callback feedback_handler deliver in_thread with_lock
       acquire release finally event_clear event_set emit set_self set_heap
       on_blackboard getattr future_result bind ret raise block get modify];
  cbn [self bb heap trace fst snd].

Lemma release_after_acquire (h : gmap nat PyObj) (l : nat) :
  alter (fun o => match o with
                  | RLockObj d => RLockObj (pred d)
                  | o => o
                  end) l
    (alter (fun o => match o with
                     | RLockObj d => RLockObj (S d)
                     | o => o
                     end) l h)
  = h.
Proof.
  apply map_eq. intros k. destruct (decide (k = l)) as [-> | Hne].
  - rewrite !lookup_alter_eq. by destruct (h !! l) as [[] |].
  - by rewrite !lookup_alter_ne.
Qed.

Lemma lock_methods_keep_heap s (future : Future (option nat)) :
  heap (cancel_state s).2 = heap s
  /\ heap (_goal_response_callback future s).2 = heap s.
Proof.
  split.
  - run_methods. destruct (_goal_handle (self s)) as [| [h |]];
      cbn [self bb heap trace fst snd]; apply release_after_acquire.
  - run_methods. destruct future as [[h |] | e];
      cbn [self bb heap trace fst snd]; apply release_after_acquire.
Qed.

(** X5: the goal-handle lock is released on every way out of the two
    methods that take it: after [cancel_state] and after the acceptance
    callback, whether they return or raise (no handle yet, a failed future, a
    handle that is None), every synchronisation object is as it was before. *)
Theorem lock_released_on_every_exit s (future : Future (option nat)) :
  heap (cancel_state s).2 = heap s
  /\ heap (_goal_response_callback future s).2 = heap s.
Proof. apply lock_methods_keep_heap. Qed.

Lemma deliver_keeps_event (i : Incoming Result Feedback) s :
  (forall r, i <> GetResult (Resolved r)) ->
  event_is_set (_action_done_event cls) (in_thread (deliver i) s).2
  = event_is_set (_action_done_event cls) s.
Proof.
  intros Hi. unfold event_is_set.
  destruct i as [future | fb | [r | e] |].
  - pose proof (lock_methods_keep_heap s future) as [_ Hheap].
    cbn [deliver]. unfold in_thread.
    destruct (_goal_response_callback future s) as [[| e |] s'];
      cbn [snd] in Hheap |- *; unfold emit, modify; cbn [snd heap];
      by rewrite Hheap.
  - run_methods. destruct (_feedback_handler (self s)) as [handler |]; [| done].
    by destruct (handler (feedback fb) (bb s)) as [[| |] b].
  - by destruct (Hi r).
  - run_methods. done.
  - pose proof (lock_methods_keep_heap s (Failed (KeyError "k"))) as [Hheap _].
    cbn [deliver]. unfold in_thread.
    destruct (cancel_state s) as [[| e |] s'];
      cbn [snd] in Hheap |- *; unfold emit, modify; cbn [snd heap];
      by rewrite Hheap.
Qed.

(** X6: the completion event changes only in the result callback of a
    future that holds a response: the acceptance callback, the feedback
    callback, [cancel_state] and a result callback whose future failed leave
    the flag as it was, set or clear, also when they raise. *)
Theorem only_result_callback_signals (i : Incoming Result Feedback) s :
  (forall r, i <> GetResult (Resolved r)) ->
  event_is_set (_action_done_event cls) (in_thread (deliver i) s).2
  = event_is_set (_action_done_event cls) s.
Proof. apply deliver_keeps_event. Qed.

Lemma cancel_state_with_handle s (h : nat) :
  _goal_handle (self s) = Bound (Some h) ->
  (cancel_state s).1 = Ret tt
  /\ trace (cancel_state s).2
     = (trace s ++ [Acquire (goal_handle_lock (self s)); CancelGoal h;
                    Release (goal_handle_lock (self s))])%list
  /\ _goal_handle (self (cancel_state s).2) = Bound (Some h)
  /\ State._canceled (base (self (cancel_state s).2)) = true.
Proof.
  intros Hgh. run_methods. rewrite Hgh. cbn.
  rewrite <- !app_assoc. done.
Qed.

Lemma cancel_times_trace (n : nat) :
  forall s (h : nat),
    _goal_handle (self s) = Bound (Some h) ->
    (cancel_times n s).1 = Ret tt
    /\ trace (cancel_times n s).2
       = (trace s
          ++ concat (replicate n [Acquire (goal_handle_lock (self s)); CancelGoal h;
                                  Release (goal_handle_lock (self s))]))%list
    /\ _goal_handle (self (cancel_times n s).2) = Bound (Some h)
    /\ ((1 <= n)%nat ->
        State._canceled (base (self (cancel_times n s).2)) = true)
    /\ heap (cancel_times n s).2 = heap s.
Proof.
  induction n as [| n IH]; intros s h Hgh.
  - cbn. rewrite app_nil_r. repeat split; try done. lia.
  - cbn [cancel_times]. unfold bind.
    destruct (cancel_state_with_handle s h Hgh) as (Hr & Ht & Hgh1 & Hc).
    pose proof (lock_methods_keep_heap s (Resolved None)) as [Hheap _].
    destruct (cancel_state s) as [r1 s1]. cbn [fst snd] in *. subst r1.
    destruct (IH s1 h Hgh1) as (Hr2 & Ht2 & Hgh2 & Hc2 & Hheap2).
    split; [exact Hr2 |]. split; [| split; [exact Hgh2 | split]].
    + rewrite Ht2, Ht, <- app_assoc. reflexivity.
    + intros _. destruct n as [| n]; [exact Hc | apply Hc2; lia].
    + by rewrite Hheap2.
Qed.

(** X8: with a handle recorded, [cancel_state] can be called any number of
    times: every call returns normally and forwards one more cancellation for
    that handle (the calls are not merged into one), the handle stays
    recorded, the canceled flag is raised by the first call, and the
    synchronisation objects end as they started. *)
Theorem cancel_forwards_each_time (n : nat) s (h : nat) :
  _goal_handle (self s) = Bound (Some h) ->
  (cancel_times n s).1 = Ret tt
  /\ added s (cancel_times n s).2
     = concat (replicate n [Acquire (goal_handle_lock (self s)); CancelGoal h;
                            Release (goal_handle_lock (self s))])
  /\ _goal_handle (self (cancel_times n s).2) = Bound (Some h)
  /\ ((1 <= n)%nat ->
      State._canceled (base (self (cancel_times n s).2)) = true)
  /\ heap (cancel_times n s).2 = heap s.
Proof.
  intros Hgh.
  destruct (cancel_times_trace n s h Hgh) as (Hr & Ht & Hg & Hc & Hh).
  repeat split; try done. by apply added_app.
Qed.

Lemma same_config_refl self : same_config self self.
Proof. by repeat split. Qed.

Lemma same_config_trans (a b c : t Goal Result Feedback) :
  same_config a b -> same_config b c -> same_config a c.
Proof.
  unfold same_config.
  intros (-> & -> & -> & -> & -> & -> & -> & ->) H. exact H.
Qed.

Ltac solve_same_config :=
  cbv [same_config set_goal_handle set_action_result set_action_status set_base
       State.cancel_state];
  cbn; by repeat split.

Lemma deliver_same_config (i : Incoming Result Feedback) s :
  same_config (self s) (self (in_thread (deliver i) s).2).
Proof.
  destruct i as [[[h |] | e] | fb | [r | e] |]; run_methods;
    try solve_same_config.
  - destruct (_feedback_handler (self s)) as [handler |];
      [| solve_same_config].
    destruct (handler (feedback fb) (bb s)) as [[| |] b]; solve_same_config.
  - destruct (_goal_handle (self s)) as [| [h |]]; solve_same_config.
Qed.

Lemma wait_same_config script :
  forall s, same_config (self s) (self (wait (_action_done_event cls) script s).2).
Proof.
  induction script as [| i script IH]; intros s; cbn [wait];
    destruct (event_is_set (_action_done_event cls) s);
    try apply same_config_refl.
  unfold bind.
  pose proof (in_thread_returns (deliver i) s) as Hret.
  pose proof (deliver_same_config i s) as Hstep.
  destruct (in_thread (deliver i) s) as [r' s']. cbn in Hret, Hstep. subst r'.
  eapply same_config_trans; [exact Hstep | apply IH].
Qed.

Lemma request_same_config act_available script s :
  same_config (self s) (self (request act_available script s).2).
Proof.
  cbv [request bind get on_blackboard emit event_clear set_heap modify ret
       done_event].
  destruct (_create_goal_handler (self s) (bb s)) as [[goal | e |] b];
    cbn [self bb heap trace snd]; try apply same_config_refl.
  destruct act_available; cbn [negb snd self]; [| apply same_config_refl].
  match goal with
  | |- context [wait _ script ?s2] =>
      pose proof (wait_same_config script s2) as Hw;
      destruct (wait (_action_done_event cls) script s2) as [[[] | e |] sw]
  end; exact Hw.
Qed.

(** X9: what the constructor set up is fixed: whatever [execute] and the
    callbacks and cancel requests that run during its wait do, the instance
    keeps its declared outcomes, action name, timeout, node, client and user
    functions. *)
Theorem execute_keeps_configuration act_available script s :
  same_config (self s) (self (execute act_available script s).2).
Proof.
  unfold execute, bind.
  pose proof (request_same_config act_available script s) as Hreq.
  destruct (request act_available script s) as [[[|] | e |] s1];
    cbn [snd] in Hreq |- *; try exact Hreq.
  destruct (outcome_of_status_trace s1) as (_ & _ & Hself). by rewrite Hself.
Qed.

Lemma request_true_result script s (sent : bool) s1 :
  request true script s = (Ret sent, s1) -> sent = true.
Proof.
  cbv [request bind get on_blackboard emit event_clear set_heap modify ret
       done_event].
  destruct (_create_goal_handler (self s) (bb s)) as [[goal | e |] b];
    [| discriminate..].
  cbn [self bb heap trace negb].
  match goal with
  | |- context [wait _ script ?s2] =>
      destruct (wait (_action_done_event cls) script s2) as [[[] | e |] sw]
  end; congruence.
Qed.

(** X10: without a result handler, an [execute] that found the server
    available returns only CANCEL, ABORT or SUCCEED; as the declared outcomes
    do not change, the outcome is a declared one whenever these three are. *)
Theorem outcome_without_result_handler script s (o : string) s' :
  _result_handler (self s) = None ->
  (forall x, x ∈ [SUCCEED; ABORT; CANCEL] -> x ∈ State._outcomes (base (self s))) ->
  execute true script s = (Ret o, s') ->
  o ∈ [SUCCEED; ABORT; CANCEL]
  /\ o ∈ State._outcomes (base (self s')).
Proof.
  intros Hrh Hdecl Hexec.
  pose proof (request_same_config true script s) as Hcfg.
  unfold execute, bind in Hexec.
  destruct (request true script s) as [[sent | e |] s1] eqn:Hreq;
    [| discriminate..].
  rewrite (request_true_result _ _ _ _ Hreq) in Hexec.
  cbn [snd] in Hcfg.
  destruct Hcfg as (Houts & _ & _ & _ & _ & _ & Hrh1 & _).
  rewrite Hrh in Hrh1.
  destruct (outcome_of_status_trace s1) as (_ & _ & Hself).
  rewrite Hexec in Hself. cbn [snd] in Hself.
  assert (Ho : o ∈ [SUCCEED; ABORT; CANCEL]).
  { revert Hexec. cbv [outcome_of_status bind getattr get ret].
    destruct (_action_status (self s1)) as [| st]; [discriminate |].
    destruct (st =? GoalStatus.STATUS_CANCELED);
      [| destruct (st =? GoalStatus.STATUS_ABORTED);
         [| destruct (st =? GoalStatus.STATUS_SUCCEEDED)]];
      rewrite <- ?Hrh1; intros [= <- _]; in_list. }
  split; [exact Ho |]. rewrite Hself, <- Houts. by apply Hdecl.
Qed.

(** X11: the TIMEOUT outcome is returned whenever the server is not
    available, also by a state built with a timeout that is not truthy (None
    or zero); unless the caller listed TIMEOUT among the extra outcomes, such
    a state returns an outcome that it does not declare. *)
Theorem timeout_returned_but_not_declared action_type action_name
    create_goal_handler outcomes result_handler feedback_handler node timeout
    self b h (tr : list (Effect Goal)) script goal b' :
  @__init__ Goal Result Feedback action_type action_name create_goal_handler
    outcomes result_handler feedback_handler node timeout = Ret self ->
  truthy_timeout timeout = false ->
  TIMEOUT ∉ match outcomes with OutcomesList l => l | _ => [] end ->
  _create_goal_handler self b = (Ret goal, b') ->
  (execute false script (mkSys self b h tr)).1 = Ret TIMEOUT
  /\ (TIMEOUT ∉ State._outcomes (base self)).
Proof.
  intros Hinit Hfalsy Hextras Hgoal. split.
  - run_methods. by rewrite Hgoal.
  - unfold __init__ in Hinit. rewrite Hfalsy in Hinit.
    destruct outcomes as [| [| o l] | [| o l]], create_goal_handler;
      simplify_eq; cbn [base State._outcomes State.__init__ app];
      intros Hin;
      do 3 (apply elem_of_cons in Hin as [Hin | Hin]; [discriminate |]);
      first [by apply elem_of_nil in Hin | exact (Hextras Hin)].
Qed.

Lemma wait_step ev (i : Incoming Result Feedback) script s :
  event_is_set ev s = false ->
  wait ev (i :: script) s = wait ev script (in_thread (deliver i) s).2.
Proof.
  intros Hclear. cbn [wait]. rewrite Hclear. unfold bind.
  pose proof (in_thread_returns (deliver i) s) as Hret.
  destruct (in_thread (deliver i) s) as [r' s']. cbn in Hret. by subst r'.
Qed.

Lemma wait_done ev script s :
  event_is_set ev s = true -> wait ev script s = (Ret tt, s).
Proof. intros Hset. destruct script; cbn [wait]; by rewrite Hset. Qed.

Lemma acceptance_keeps_blackboard (future : Future (option nat)) s :
  bb (in_thread (deliver (GoalResponse future)) s).2 = bb s.
Proof. destruct future as [[h |] | e]; by run_methods. Qed.

Lemma feedback_runs_on_blackboard fb s feedback_function b2 :
  _feedback_handler (self s) = Some feedback_function ->
  feedback_function (feedback fb) (bb s) = (Ret tt, b2) ->
  (in_thread (deliver (FeedbackArrives fb)) s).2
  = mkSys (self s) b2 (heap s) (trace s).
Proof. intros Hfh Hfeed. run_methods. by rewrite Hfh, Hfeed. Qed.

Lemma result_callback_stores (r : GetResultResponse Result) s :
  let s' := (in_thread (deliver (GetResult (Resolved r))) s).2 in
  bb s' = bb s
  /\ _action_result (self s') = Bound (result r)
  /\ _action_status (self s') = Bound (status r)
  /\ event_is_set (_action_done_event cls) s' = true.
Proof.
  cbn zeta. unfold event_is_set. run_methods. unfold done_event.
  by rewrite lookup_insert_eq.
Qed.

(** X12: the user functions work on one blackboard: what the goal function
    wrote is what the feedback function finds, and what both wrote is what
    the result handler finds; the outcome and the final blackboard of
    [execute] are those of the result handler run on that blackboard with the
    result of the response. *)
Theorem handlers_share_the_blackboard s (h : nat) fb r goal
    feedback_function result_handler b1 b2 :
  _create_goal_handler (self s) (bb s) = (Ret goal, b1) ->
  _feedback_handler (self s) = Some feedback_function ->
  feedback_function (feedback fb) b1 = (Ret tt, b2) ->
  _result_handler (self s) = Some result_handler ->
  let script := [GoalResponse (Resolved (Some h)); FeedbackArrives fb;
                 GetResult (Resolved (mkResponse GoalStatus.STATUS_SUCCEEDED r))] in
  (execute true script s).1 = (result_handler r b2).1
  /\ bb (execute true script s).2 = (result_handler r b2).2.
Proof.
  intros Hgoal Hfh Hfeed Hrh script. subst script.
  assert (Hreq : exists s5,
    request true [GoalResponse (Resolved (Some h)); FeedbackArrives fb;
                  GetResult (Resolved (mkResponse GoalStatus.STATUS_SUCCEEDED r))] s
    = (Ret true, s5)
    /\ bb s5 = b2
    /\ _action_result (self s5) = Bound r
    /\ _action_status (self s5) = Bound GoalStatus.STATUS_SUCCEEDED
    /\ _result_handler (self s5) = Some result_handler).
  { cbv [request bind get on_blackboard emit event_clear set_heap modify ret
         done_event].
    rewrite Hgoal. cbn [self bb heap trace negb].
    match goal with
    | |- context [wait _ _ ?s2] => set (s2' := s2)
    end.
    assert (Hclear2 : event_is_set (_action_done_event cls) s2' = false).
    { unfold event_is_set, s2'. cbn [heap]. by rewrite lookup_insert_eq. }
    rewrite (wait_step _ _ _ _ Hclear2).
    set (s3 := (in_thread (deliver (GoalResponse (Resolved (Some h)))) s2').2).
    assert (Hclear3 : event_is_set (_action_done_event cls) s3 = false).
    { unfold s3. rewrite deliver_keeps_event; [exact Hclear2 | discriminate]. }
    pose proof (deliver_same_config (GoalResponse (Resolved (Some h))) s2') as Hcfg3.
    fold s3 in Hcfg3.
    destruct Hcfg3 as (_ & _ & _ & _ & _ & _ & Hrh3 & Hfh3).
    change (self s2') with (self s) in Hrh3, Hfh3.
    assert (Hbb3 : bb s3 = b1) by (unfold s3; by rewrite acceptance_keeps_blackboard).
    rewrite (wait_step _ _ _ _ Hclear3).
    rewrite (feedback_runs_on_blackboard fb s3 feedback_function b2)
      by (by rewrite <- ?Hfh3, ?Hbb3).
    set (s4 := mkSys (self s3) b2 (heap s3) (trace s3)).
    assert (Hclear4 : event_is_set (_action_done_event cls) s4 = false)
      by exact Hclear3.
    rewrite (wait_step _ _ _ _ Hclear4).
    pose proof (result_callback_stores (mkResponse GoalStatus.STATUS_SUCCEEDED r) s4)
      as (Hbb5 & Hres5 & Hst5 & Hset5).
    pose proof (deliver_same_config
                  (GetResult (Resolved (mkResponse GoalStatus.STATUS_SUCCEEDED r))) s4)
      as (_ & _ & _ & _ & _ & _ & Hrh5 & _).
    rewrite (wait_done _ _ _ Hset5).
    eexists. split; [reflexivity |].
    by repeat split. }
  destruct Hreq as (s5 & Hreq & Hbb5 & Hres5 & Hst5 & Hrh5).
  unfold execute, bind. rewrite Hreq.
  cbv [outcome_of_status bind getattr get ret on_blackboard].
  rewrite Hst5. cbn. rewrite Hrh5, Hres5, Hbb5.
  by destruct (result_handler r b2) as [[| |] b3].
Qed.

(** X14: [execute] does not forget the handle of an earlier goal: when a
    handle is recorded from before and [cancel_state] is the first thing that
    runs during the wait of a new call, the cancellation is forwarded for that
    earlier handle, right after the new goal was sent. *)
Theorem cancel_during_new_call_hits_previous_handle s (h0 : nat) goal b' script :
  _create_goal_handler (self s) (bb s) = (Ret goal, b') ->
  _goal_handle (self s) = Bound (Some h0) ->
  exists rest,
    added s (execute true (CancelRequest :: script) s).2
    = ([LogInfo ("Waiting for action '" +:+ _action_name (self s) +:+ "'");
        WaitForServer (_timeout (self s));
        EventClear (done_event (self s));
        LogInfo ("Sending goal to action '" +:+ _action_name (self s) +:+ "'");
        SendGoalAsync goal;
        AddDoneCallback "_goal_response_callback";
        EventWait (done_event (self s));
        Acquire (goal_handle_lock (self s)); CancelGoal h0;
        Release (goal_handle_lock (self s))] ++ rest)%list.
Proof.
  intros Hgoal Hgh.
  assert (Hreq : exists rest,
    trace (request true (CancelRequest :: script) s).2
    = (trace s
       ++ [LogInfo ("Waiting for action '" +:+ _action_name (self s) +:+ "'");
           WaitForServer (_timeout (self s));
           EventClear (done_event (self s));
           LogInfo ("Sending goal to action '" +:+ _action_name (self s) +:+ "'");
           SendGoalAsync goal;
           AddDoneCallback "_goal_response_callback";
           EventWait (done_event (self s));
           Acquire (goal_handle_lock (self s)); CancelGoal h0;
           Release (goal_handle_lock (self s))] ++ rest)%list).
  { cbv [request bind get on_blackboard emit event_clear set_heap modify ret
         done_event].
    rewrite Hgoal. cbn [self bb heap trace negb].
    match goal with
    | |- context [wait _ _ ?s2] => set (s2' := s2)
    end.
    assert (Hclear2 : event_is_set (_action_done_event cls) s2' = false).
    { unfold event_is_set, s2'. cbn [heap]. by rewrite lookup_insert_eq. }
    rewrite (wait_step _ _ _ _ Hclear2).
    destruct (cancel_state_with_handle s2' h0 Hgh) as (Hr & Ht & _ & _).
    assert (Hs3 : trace (in_thread (deliver CancelRequest) s2').2
                  = trace (cancel_state s2').2).
    { cbn [deliver]. unfold in_thread.
      destruct (cancel_state s2') as [[[] | e |] s3'];
        cbn [fst] in Hr; try discriminate; reflexivity. }
    match goal with
    | |- context [wait _ script ?s3] =>
        destruct (wait_extends script s3) as (a & Ea & _);
        destruct (wait (_action_done_event cls) script s3) as [[[] | e |] sw]
    end; cbn [snd] in Ea |- *; exists a;
      rewrite Ea, Hs3, Ht; unfold s2'; cbn [trace self];
      by rewrite <- !app_assoc. }
  destruct Hreq as (rest & Hreq). exists rest. apply added_app.
  unfold execute, bind.
  destruct (request true (CancelRequest :: script) s) as [[[|] | e |] s1];
    cbn [snd] in Hreq |- *; try exact Hreq.
  destruct (outcome_of_status_trace s1) as (Htr & _ & _). by rewrite Htr.
Qed.

(** *** The store of synchronisation objects *)

Lemma in_thread_heap (m : M (Sys Goal Result Feedback) unit) s :
  heap (in_thread m s).2 = heap (m s).2.
Proof. unfold in_thread. by destruct (m s) as [[| e |] s']. Qed.

(** A step of another thread changes nothing in the store but, at most, the
    flag of the completion event. *)
Lemma deliver_heap (i : Incoming Result Feedback) s :
  heap (in_thread (deliver i) s).2 = heap s
  \/ heap (in_thread (deliver i) s).2
     = <[_action_done_event cls := EventObj true]> (heap s).
Proof.
  rewrite in_thread_heap.
  destruct i as [future | fb | [r | e] |]; cbn [deliver].
  - left. apply lock_methods_keep_heap.
  - left. run_methods. destruct (_feedback_handler (self s)) as [handler |];
      [| done]. by destruct (handler (feedback fb) (bb s)) as [[| |] b].
  - right. by run_methods.
  - left. by run_methods.
  - left. apply (lock_methods_keep_heap s (Failed (KeyError "k"))).
Qed.

Lemma wait_heap script :
  forall s,
    heap (wait (_action_done_event cls) script s).2 = heap s
    \/ heap (wait (_action_done_event cls) script s).2
       = <[_action_done_event cls := EventObj true]> (heap s).
Proof.
  induction script as [| i script IH]; intros s; cbn [wait];
    destruct (event_is_set (_action_done_event cls) s); try (by left).
  unfold bind.
  pose proof (in_thread_returns (deliver i) s) as Hret.
  pose proof (deliver_heap i s) as Hstep.
  destruct (in_thread (deliver i) s) as [r' s']. cbn in Hret, Hstep. subst r'.
  destruct (IH s') as [-> | ->], Hstep as [-> | ->]; auto.
  right. by rewrite insert_insert_eq.
Qed.

Lemma execute_heap act_available script s :
  heap (execute act_available script s).2 = heap s
  \/ exists flag,
       heap (execute act_available script s).2
       = <[_action_done_event cls := EventObj flag]> (heap s).
Proof.
  assert (Hreq : heap (request act_available script s).2 = heap s
                 \/ exists flag,
                      heap (request act_available script s).2
                      = <[_action_done_event cls := EventObj flag]> (heap s)).
  { cbv [request bind get on_blackboard emit event_clear set_heap modify ret
         done_event].
    destruct (_create_goal_handler (self s) (bb s)) as [[goal | e |] b];
      cbn [self bb heap trace snd]; try (by left).
    destruct act_available; cbn [negb snd heap]; [| by left].
    match goal with
    | |- context [wait _ script ?s2] =>
        pose proof (wait_heap script s2) as Hw;
        destruct (wait (_action_done_event cls) script s2) as [[[] | e |] sw]
    end; cbn [snd heap] in Hw |- *; right;
      (destruct Hw as [-> | ->];
       [by exists false | exists true; by rewrite insert_insert_eq]). }
  unfold execute, bind.
  destruct (request act_available script s) as [[[|] | e |] s1];
    cbn [snd] in Hreq |- *; try exact Hreq.
  destruct (outcome_of_status_trace s1) as (_ & Hheap & _). by rewrite Hheap.
Qed.

(** C4 (as amended): [execute] creates no event and no lock.  All it changes
    in the store of synchronisation objects is, at most, the flag of the
    completion event the instance had before the call (cleared, not
    replaced, before the goal is sent), so the store holds the same objects
    after the call; every lock or event operation of the call is on the
    event and the lock the instance had before the call, and the instance has
    the same two after it.  Successive calls on one instance so work on one
    and the same event and lock. *)
Theorem C4_execute_uses_the_objects_it_finds act_available script s :
  let s' := (execute act_available script s).2 in
  (heap s' = heap s
   \/ exists flag, heap s' = <[done_event (self s) := EventObj flag]> (heap s))
  /\ (is_Some (heap s !! done_event (self s)) -> dom (heap s') = dom (heap s))
  /\ (forall l, l ∈ sync_objects (added s s') ->
                l = done_event (self s) \/ l = goal_handle_lock (self s))
  /\ done_event (self s') = done_event (self s)
  /\ goal_handle_lock (self s') = goal_handle_lock (self s).
Proof.
  intros s'. subst s'.
  pose proof (execute_heap act_available script s) as Hheap.
  split; [exact Hheap |]. split; [| split; [| done]].
  - intros Hev. destruct Hheap as [-> | [flag ->]]; [done |].
    by apply dom_insert_lookup_L.
  - intros l Hin.
    destruct (execute_extends act_available script s) as (a & Ea & Ha).
    rewrite (added_app _ _ _ Ea) in Hin. by apply Ha.
Qed.

(** *** Waiting among several instances *)

Lemma in_thread_as_instance (other : t Goal Result Feedback)
    (m : M (Sys Goal Result Feedback) unit) s :
  (in_thread (as_instance other m) s).2
  = let x := (in_thread m (mkSys other (bb s) (heap s) (trace s))).2 in
    mkSys (self s) (bb x) (heap x) (trace x).
Proof.
  unfold in_thread, as_instance.
  by destruct (m (mkSys other (bb s) (heap s) (trace s))) as [[| e |] s'].
Qed.

Lemma activity_returns (a : Activity Goal Result Feedback) s :
  (in_thread (run_activity a) s).1 = Ret tt.
Proof. apply in_thread_returns. Qed.

Lemma activity_keeps_event (a : Activity Goal Result Feedback) s :
  (forall r, a <> Own (GetResult (Resolved r))) ->
  (forall other r, a <> Foreign other (GetResult (Resolved r))) ->
  event_is_set (_action_done_event cls) (in_thread (run_activity a) s).2
  = event_is_set (_action_done_event cls) s.
Proof.
  intros Hown Hforeign. destruct a as [i | other i]; cbn [run_activity].
  - apply deliver_keeps_event. intros r ->. by apply (Hown r).
  - rewrite in_thread_as_instance. cbn zeta.
    pose proof (deliver_keeps_event i (mkSys other (bb s) (heap s) (trace s)))
      as Hkeep.
    unfold event_is_set in *. cbn [heap] in *. apply Hkeep.
    intros r ->. by apply (Hforeign other r).
Qed.

Lemma activity_grows_trace (a : Activity Goal Result Feedback) s :
  exists x, trace (in_thread (run_activity a) s).2 = (trace s ++ x)%list.
Proof.
  destruct a as [i | other i]; cbn [run_activity].
  - destruct (deliver_extends i s) as (x & Ex & _). by exists x.
  - rewrite in_thread_as_instance. cbn zeta. cbn [trace].
    destruct (deliver_extends i (mkSys other (bb s) (heap s) (trace s)))
      as (x & Ex & _).
    by exists x.
Qed.

Lemma wait_among_step ev (a : Activity Goal Result Feedback) acts s :
  event_is_set ev s = false ->
  wait_among ev (a :: acts) s = wait_among ev acts (in_thread (run_activity a) s).2.
Proof.
  intros Hclear. cbn [wait_among]. rewrite Hclear. unfold bind.
  pose proof (activity_returns a s) as Hret.
  destruct (in_thread (run_activity a) s) as [r' s']. cbn in Hret. by subst r'.
Qed.

Lemma wait_among_done ev (acts : list (Activity Goal Result Feedback)) s :
  event_is_set ev s = true -> wait_among ev acts s = (Ret tt, s).
Proof. intros Hset. destruct acts; cbn [wait_among]; by rewrite Hset. Qed.

Lemma wait_among_grows_trace (acts : list (Activity Goal Result Feedback)) :
  forall s,
    exists x,
      trace (wait_among (_action_done_event cls) acts s).2 = (trace s ++ x)%list.
Proof.
  induction acts as [| a acts IH]; intros s.
  - exists []. cbn [wait_among].
    destruct (event_is_set (_action_done_event cls) s); by rewrite app_nil_r.
  - destruct (event_is_set (_action_done_event cls) s) eqn:Hflag.
    + exists []. by rewrite wait_among_done, app_nil_r.
    + rewrite wait_among_step by exact Hflag.
      destruct (activity_grows_trace a s) as (x & Ex).
      destruct (IH (in_thread (run_activity a) s).2) as (y & Ey).
      exists (x ++ y)%list. by rewrite Ey, Ex, app_assoc.
Qed.

Lemma wait_among_blocks (acts : list (Activity Goal Result Feedback)) :
  forall s,
    event_is_set (_action_done_event cls) s = false ->
    (forall r, Own (GetResult (Resolved r)) ∉ acts) ->
    (forall other r, Foreign other (GetResult (Resolved r)) ∉ acts) ->
    (wait_among (_action_done_event cls) acts s).1 = Block.
Proof.
  induction acts as [| a acts IH]; intros s Hclear Hown Hforeign.
  - cbn [wait_among]. by rewrite Hclear.
  - rewrite wait_among_step by exact Hclear. apply IH.
    + rewrite activity_keeps_event; [exact Hclear | |].
      * intros r ->. apply (Hown r), list_elem_of_here.
      * intros other r ->. apply (Hforeign other r), list_elem_of_here.
    + intros r Hin. apply (Hown r), list_elem_of_further, Hin.
    + intros other r Hin. apply (Hforeign other r), list_elem_of_further, Hin.
Qed.

(** The wait among the activities of this instance alone is the wait of
    [execute]. *)
Lemma wait_among_own ev script :
  forall s, wait_among ev (map Own script) s = wait ev script s.
Proof.
  induction script as [| i script IH]; intros s; cbn [map wait_among wait];
    [reflexivity |].
  destruct (event_is_set ev s); [reflexivity |].
  unfold bind. cbn [run_activity].
  destruct (in_thread (deliver i) s) as [[[] | e |] s']; try reflexivity.
  apply IH.
Qed.

Lemma execute_among_own act_available script s :
  execute_among act_available (map Own script) s = execute act_available script s.
Proof.
  cbv [execute_among execute request_among request bind get on_blackboard emit
       event_clear set_heap modify ret].
  destruct (_create_goal_handler (self s) (bb s)) as [[goal | e |] b];
    try reflexivity.
  destruct act_available; cbn [negb]; [| reflexivity].
  by rewrite wait_among_own.
Qed.

(** X7: once the goal is sent, [execute] waits without bound on the
    completion event of the class: if no result callback with a response
    arrives, of this instance or of any other, it never returns, whatever
    acceptance, feedback, cancel requests or failed futures of any instance
    arrive instead. *)
Theorem execute_waits_for_result s (acts : list (Activity Goal Result Feedback))
    goal b' :
  _create_goal_handler (self s) (bb s) = (Ret goal, b') ->
  (forall r, Own (GetResult (Resolved r)) ∉ acts) ->
  (forall other r, Foreign other (GetResult (Resolved r)) ∉ acts) ->
  (execute_among true acts s).1 = Block
  /\ SendGoalAsync goal ∈ added s (execute_among true acts s).2.
Proof.
  intros Hgoal Hown Hforeign.
  cbv [execute_among request_among bind get on_blackboard emit event_clear
       set_heap modify ret done_event].
  rewrite Hgoal. cbn [self bb heap trace negb].
  match goal with
  | |- context [wait_among _ acts ?s2] =>
      pose proof (wait_among_blocks acts s2) as Hblock;
      pose proof (wait_among_grows_trace acts s2) as (x & Ex);
      destruct (wait_among (_action_done_event cls) acts s2) as [rw sw]
  end.
  cbn [fst snd trace] in Hblock, Ex.
  rewrite Hblock; [| unfold event_is_set; cbn [heap]; by rewrite lookup_insert_eq
                   | exact Hown | exact Hforeign].
  split; [reflexivity |]. cbn [snd].
  rewrite <- !app_assoc in Ex. rewrite (added_app _ _ _ Ex). cbn. in_list.
Qed.

(** X15: the completion event being the class's, the result callback of
    another instance ends the wait of this one: when it is the first thing to
    run after this instance sent its goal, the wait returns with this
    instance's attributes untouched, and [execute] goes on to read its own
    status; it raises AttributeError when this instance has stored no status
    yet. *)
Theorem foreign_result_ends_the_wait s (other : t Goal Result Feedback)
    (r : GetResultResponse Result) (acts : list (Activity Goal Result Feedback))
    goal b' :
  _create_goal_handler (self s) (bb s) = (Ret goal, b') ->
  let acts' := Foreign other (GetResult (Resolved r)) :: acts in
  exists s3,
    request_among true acts' s = (Ret true, s3)
    /\ self s3 = self s
    /\ execute_among true acts' s = outcome_of_status s3
    /\ (_action_status (self s) = Unset ->
        execute_among true acts' s = (Raise (AttributeError "_action_status"), s3)).
Proof.
  intros Hgoal acts'. subst acts'.
  assert (Hreq : exists s3,
    request_among true (Foreign other (GetResult (Resolved r)) :: acts) s
    = (Ret true, s3) /\ self s3 = self s).
  { cbv [request_among bind get on_blackboard emit event_clear set_heap modify
         ret done_event].
    rewrite Hgoal. cbn [self bb heap trace negb].
    match goal with
    | |- context [wait_among _ _ ?s2] => set (s2' := s2)
    end.
    assert (Hclear : event_is_set (_action_done_event cls) s2' = false).
    { unfold event_is_set, s2'. cbn [heap]. by rewrite lookup_insert_eq. }
    rewrite (wait_among_step _ _ _ _ Hclear). cbn [run_activity].
    rewrite in_thread_as_instance. cbn zeta.
    destruct (result_callback_stores r (mkSys other (bb s2') (heap s2') (trace s2')))
      as (_ & _ & _ & Hset).
    rewrite wait_among_done by exact Hset.
    eexists. split; reflexivity. }
  destruct Hreq as (s3 & Hreq & Hself). exists s3.
  assert (Hexec : execute_among true
                    (Foreign other (GetResult (Resolved r)) :: acts) s
                  = outcome_of_status s3).
  { unfold execute_among, bind. by rewrite Hreq. }
  repeat split; try done.
  intros Hunset. rewrite Hexec.
  cbv [outcome_of_status bind getattr]. by rewrite Hself, Hunset.
Qed.

End BridgeMore.

(** ** Witnesses of the further properties *)

Lemma only_result_callback_signals_witness :
  exists a,
    demo_client (ret "goal") OutcomesNone None = Ret a
    /\ event_is_set (_action_done_event cls)
         (in_thread (deliver CancelRequest) (fresh_sys a)).2
       = event_is_set (_action_done_event cls) (fresh_sys a).
Proof.
  eexists. split; [reflexivity |].
  apply (only_result_callback_signals CancelRequest). discriminate.
Defined.

(** An instance that has recorded goal handle 7. *)
Lemma cancel_forwards_each_time_witness :
  exists a,
    demo_client (ret "goal") OutcomesNone None = Ret a
    /\ let s := (_goal_response_callback (Resolved (Some 7%nat)) (fresh_sys a)).2 in
       (cancel_times 3 s).1 = Ret tt
       /\ added s (cancel_times 3 s).2
          = concat (replicate 3 [Acquire (goal_handle_lock (self s)); CancelGoal 7;
                                 Release (goal_handle_lock (self s))])
       /\ heap (cancel_times 3 s).2 = heap s.
Proof.
  eexists. split; [reflexivity |].
  match goal with
  | |- let s := ?s0 in _ =>
      destruct (cancel_forwards_each_time 3 s0 7%nat eq_refl)
        as (Hr & Ha & _ & _ & Hh)
  end.
  repeat split; assumption.
Defined.

Lemma outcome_without_result_handler_witness :
  exists a,
    demo_client (ret "goal") OutcomesNone None = Ret a
    /\ let run := execute true (accepted_then_succeeded 1 "r1") (fresh_sys a) in
       (SUCCEED ∈ [SUCCEED; ABORT; CANCEL])
       /\ (SUCCEED ∈ State._outcomes (base (self run.2))).
Proof.
  eexists. split; [reflexivity |].
  match goal with
  | |- let run := execute true ?sc ?s0 in _ =>
      assert (Hexec : execute true sc s0 = (Ret SUCCEED, (execute true sc s0).2))
        by (vm_compute; reflexivity);
      apply (outcome_without_result_handler sc s0 SUCCEED _ eq_refl
               (fun x Hx => Hx) Hexec)
  end.
Defined.

Lemma timeout_returned_but_not_declared_witness :
  exists a,
    demo_client (ret "goal") (OutcomesList ["retry"]) (Some 0%Q) = Ret a
    /\ (execute false [] (fresh_sys a)).1 = Ret TIMEOUT
    /\ (TIMEOUT ∉ State._outcomes (base a)).
Proof.
  eexists. split; [reflexivity |].
  apply (timeout_returned_but_not_declared
           "Fibonacci" "/fibonacci" (Some (ret "goal")) (OutcomesList ["retry"])
           (None : option (string -> M (gmap string string) string))
           (None : option (string -> M (gmap string string) unit))
           None (Some 0%Q) _ ∅ heap0 [] [] "goal" ∅ eq_refl eq_refl).
  - not_in_list.
  - reflexivity.
Defined.

Lemma handlers_share_the_blackboard_witness :
  exists a,
    ActionState.__init__ "Fibonacci" "/fibonacci"
      (Some (fun b => (Ret "goal", <["order" := "10"]> b)))
      OutcomesNone
      (Some (fun (r : string) (b : gmap string string) =>
               (Ret (default SUCCEED (b !! "order")), <["result" := r]> b)))
      (Some (fun (f : string) (b : gmap string string) =>
               (Ret tt, <["last" := f]> b)))
      None None = Ret a
    /\ let script := [GoalResponse (Resolved (Some 1%nat));
                      FeedbackArrives (mkFeedback "partial");
                      GetResult (Resolved (mkResponse GoalStatus.STATUS_SUCCEEDED "r1"))] in
       (execute true script (fresh_sys a)).1 = Ret "10"
       /\ bb (execute true script (fresh_sys a)).2
          = <["result" := "r1"]> (<["last" := "partial"]> (<["order" := "10"]> ∅)).
Proof.
  eexists. split; [reflexivity |].
  match goal with
  | |- let script := _ in (execute true _ ?s0).1 = _ /\ _ =>
      pose proof (handlers_share_the_blackboard s0 1%nat (mkFeedback "partial")
                    "r1" "goal" _ _ _ _ eq_refl eq_refl eq_refl eq_refl) as [Ho Hb]
  end.
  cbn zeta. split.
  - rewrite Ho. vm_compute. reflexivity.
  - rewrite Hb. reflexivity.
Defined.

Lemma cancel_during_new_call_hits_previous_handle_witness :
  exists a,
    demo_client (ret "goal") OutcomesNone None = Ret a
    /\ let s := (execute true (accepted_then_succeeded 1 "r1") (fresh_sys a)).2 in
       exists rest,
         added s (execute true (canceled_before_acceptance 2 "r2") s).2
         = ([LogInfo ("Waiting for action '" +:+ _action_name (self s) +:+ "'");
             WaitForServer (_timeout (self s));
             EventClear (done_event (self s));
             LogInfo ("Sending goal to action '" +:+ _action_name (self s) +:+ "'");
             SendGoalAsync "goal";
             AddDoneCallback "_goal_response_callback";
             EventWait (done_event (self s));
             Acquire (goal_handle_lock (self s)); CancelGoal 1;
             Release (goal_handle_lock (self s))] ++ rest)%list.
Proof.
  eexists. split; [reflexivity |]. cbn zeta.
  match goal with
  | |- exists rest, added ?s0 _ = _ =>
      apply (cancel_during_new_call_hits_previous_handle s0 1%nat "goal" ∅
               (accepted_then_succeeded 2 "r2"))
  end; reflexivity.
Defined.

Lemma C4_execute_uses_the_objects_it_finds_witness :
  exists a,
    demo_client (ret "goal") OutcomesNone None = Ret a
    /\ let s := fresh_sys a in
       let s' := snd (execute true (accepted_then_succeeded 1 "r1") s) in
       dom (heap s') = dom (heap s)
       /\ (0%nat ∈ sync_objects (added s s'))
       /\ (0%nat = done_event (self s) \/ 0%nat = goal_handle_lock (self s)).
Proof.
  eexists. split; [reflexivity |]. cbn zeta.
  match goal with
  | |- dom (heap (snd (execute true ?script ?s0))) = _ /\ _ =>
      destruct (C4_execute_uses_the_objects_it_finds true script s0)
        as (_ & Hdom & Hobj & _);
      assert (Hin : 0%nat ∈ sync_objects (added s0 (snd (execute true script s0))))
        by (vm_compute; in_list)
  end.
  split; [apply Hdom; by eexists | split; [exact Hin | exact (Hobj _ Hin)]].
Defined.

Lemma execute_waits_for_result_witness :
  exists a,
    demo_client (ret "goal") OutcomesNone None = Ret a
    /\ let acts := [Own CancelRequest;
                    Foreign a (GoalResponse (Resolved (Some 1%nat)));
                    Own (GetResult (Failed (UserException "lost")));
                    Foreign a CancelRequest] in
       (execute_among true acts (fresh_sys a)).1 = Block
       /\ (SendGoalAsync "goal"
           ∈ added (fresh_sys a) (execute_among true acts (fresh_sys a)).2).
Proof.
  eexists. split; [reflexivity |]. cbn zeta.
  match goal with
  | |- (execute_among true ?acts ?s0).1 = Block /\ _ =>
      apply (execute_waits_for_result s0 acts "goal" ∅ eq_refl)
  end.
  - intros r. not_in_list.
  - intros other r. not_in_list.
Defined.

Lemma foreign_result_ends_the_wait_witness :
  exists a,
    demo_client (ret "goal") OutcomesNone None = Ret a
    /\ (execute_among true
          [Foreign a (GetResult (Resolved (mkResponse GoalStatus.STATUS_SUCCEEDED "r")))]
          (fresh_sys a)).1
       = Raise (AttributeError "_action_status").
Proof.
  eexists. split; [reflexivity |].
  match goal with
  | |- (execute_among true [Foreign ?other (GetResult (Resolved ?r))] ?s0).1 = _ =>
      destruct (foreign_result_ends_the_wait s0 other r [] "goal" ∅ eq_refl)
        as (s3 & _ & _ & _ & Hraise)
  end.
  by rewrite Hraise.
Defined.
